(** * discord/client.py: connection lifecycle and event dispatch

    A shallow embedding of the [Client] class of discord/client.py: the
    login exchange, the websocket handshake, the receive loop, the
    dispatcher, the keep-alive task and [close].

    The client object is a record; the coroutines are functions in a
    state-and-exception monad over a [World] holding the client, the tasks
    of the asyncio event loop and the chronological list of observable
    actions (network requests, log lines, calls into user code).  Code that
    lives outside the client (user callbacks, the parsers of
    [ConnectionState], the HTTP server, the clock) is represented by what
    the client observes of it: the answer it gives.  A call into user
    code is an action of the trace and ends as [user_code] says; a parser
    of the state store is an action, the events it dispatches and its
    result.  Coroutines run from one suspension to the next without
    interleaving; a task is resumed by [resume_task]. *)

From Stdlib Require Import ZArith QArith Ascii String.
From Stdlib Require SpecFloat.
From stdpp Require Import gmap strings list.

Local Open Scope string_scope.
Local Open Scope list_scope.
Local Open Scope Z_scope.

Set Warnings "-register-all".

(** ** Python values *)

(** The values [json.loads] produces and the arguments events carry.
    [JNull] is Python's [None].  Numbers are the integers: the gateway's
    operation codes and intervals are JSON integers, and a frame with a
    fractional number is not among the frames considered here.  Floats
    appear where the code makes them, in the division by [1000.0]. *)
Inductive json : Type :=
  | JNull
  | JBool (b : bool)
  | JInt (z : Z)
  | JStr (s : string)
  | JList (l : list json)
  | JDict (kv : list (string * json)).

(** [d.get(k)] on a dict: the first binding of [k], [None] when absent. *)
Fixpoint dict_get (kv : list (string * json)) (k : string) : json :=
  match kv with
  | [] => JNull
  | (k', v) :: kv' => if String.eqb k' k then v else dict_get kv' k
  end.

(** [d[k]] on a dict: [None] here stands for [KeyError]. *)
Fixpoint dict_item (kv : list (string * json)) (k : string) : option json :=
  match kv with
  | [] => None
  | (k', v) :: kv' => if String.eqb k' k then Some v else dict_item kv' k
  end.

(** [type(v).__name__], as it appears in Python's error messages. *)
Definition type_name (v : json) : string :=
  match v with
  | JNull => "NoneType"
  | JBool _ => "bool"
  | JInt _ => "int"
  | JStr _ => "str"
  | JList _ => "list"
  | JDict _ => "dict"
  end.

(** [v == 0]: an int compares by value, [False == 0] holds, every other
    type is unequal to [0]. *)
Definition py_eq_zero (v : json) : bool :=
  match v with
  | JInt z => Z.eqb z 0
  | JBool b => negb b
  | _ => false
  end.

(** [v == s] for a string constant [s]. *)
Definition py_eq_str (v : json) (s : string) : bool :=
  match v with
  | JStr s' => String.eqb s' s
  | _ => false
  end.

(** [str.lower] on ASCII text. *)
Definition lower_ascii (c : ascii) : ascii :=
  let n := nat_of_ascii c in
  if (Nat.leb 65 n && Nat.leb n 90)%bool then ascii_of_nat (n + 32) else c.

Fixpoint lower (s : string) : string :=
  match s with
  | EmptyString => EmptyString
  | String c s' => String (lower_ascii c) (lower s')
  end.

(** Positional and keyword arguments of a call: [args] and [kwargs]. *)
Record args : Type := mkArgs {
  pos : list json;
  kw : list (string * json)
}.

Definition positional (l : list json) : args := mkArgs l [].

(** ** Exceptions

    The subclasses of Python's [Exception] this module raises or meets.
    [UserError] is an [Exception] raised by user code. *)
Inductive exn : Type :=
  | AttributeError (owner attr : string)
  | KeyError (key : string)
  | TypeError (what : string)
  | ValueError (what : string)
  | ClientException (msg : string)
  | LoginFailure (msg : string)
  | HTTPException (status : Z) (message : json)
  | GatewayNotFound
  | OverflowError (what : string)
  | UserError (tag : string).

Inductive Res (A : Type) : Type :=
  | Return (a : A)
  | Raise (e : exn).
Arguments Return {A} a.
Arguments Raise {A} e.

(** ** Observable actions *)

Inductive endpoint : Type := LOGIN | LOGOUT | GATEWAY | USERS.

Inductive loglevel : Type := DEBUG | INFO.

(** [to_json(obj)]: the text [json.dumps(obj, separators=(',', ':'),
    ensure_ascii=True)] of the value [obj].  The text is kept symbolic:
    the order of a dict's keys in it is the interpreter's. *)
Inductive wire : Type := Dumps (obj : json).

Definition to_json (obj : json) : wire := Dumps obj.

(** The coroutines the client hands to the event loop. *)
Inductive coroutine : Type :=
  | RunEvent (method : string) (a : args)
  | KeepAlive (interval : Q).

Inductive action : Type :=
  | Log (lvl : loglevel) (fmt : string) (arg : json)
  | HttpPost (ep : endpoint) (body : option wire) (hdrs : gmap string json)
  | HttpGet (ep : endpoint) (hdrs : gmap string json)
  | WsConnect (url : json)
  | WsSend (text : wire)
  | WsRecv
  | WsClose
  | Sleep (seconds : Q)
  | Stderr (fmt : string) (arg : json)
  | PrintExc (exc_info : option exn)
  | Call (attr : string) (a : args)
  | Parse (parser : string) (data : json)
  | CreateTask (tid : nat) (c : coroutine)
  | CancelTask (tid : nat).

(** ** The event loop's tasks *)

(** Where a task stands: not yet started, suspended in [ws.send],
    suspended in [asyncio.sleep], finished with a result or an exception,
    or cancelled. *)
Inductive task_state : Type :=
  | Pending
  | InSend
  | InSleep
  | Finished (r : Res unit)
  | Cancelled.

Record task : Type := mkTask {
  coro : coroutine;
  state : task_state
}.

(** ** The client object *)

Record WebSocket : Type := mkWebSocket {
  ws_url : json;
  max_size : option Z
}.

(** Modelled from the spec: discord/state.py ([ConnectionState]) is not
    part of the sources.  The state store keeps the login email and "a
    capacity-bounded ordered sequence" of messages "evicting oldest entries
    on overflow"; the client builds it with
    [ConnectionState(self.dispatch, max_messages)]. *)
Record ConnectionState : Type := mkConnectionState {
  cs_max_messages : Z;
  cs_email : json;
  cs_messages : list json
}.

(** Modelled from the spec: appending to the bounded message history
    drops the oldest entries once the capacity is exceeded. *)
Definition cs_append (m : json) (cs : ConnectionState) : ConnectionState :=
  let l := (cs_messages cs ++ [m]) in
  mkConnectionState (cs_max_messages cs) (cs_email cs)
    (drop (length l - Z.to_nat (cs_max_messages cs)) l).

(** The instance attributes.  [_is_logged_in] and [keep_alive] are not
    assigned by [__init__]: [None] is an attribute that does not exist.
    [ws = None] is Python's [None].  [attrs] holds the attributes a user
    adds ([event] does [setattr(self, coro.__name__, coro)]; a subclass
    defines methods), each naming the function it is bound to. *)
Record Client : Type := mkClient {
  ws : option WebSocket;
  token : json;
  gateway : json;
  headers : gmap string json;
  connection : ConnectionState;
  _closed : bool;
  _is_logged_in : option bool;
  keep_alive : option nat;
  attrs : gmap string nat
}.

Record World : Type := mkWorld {
  self : Client;
  tasks : list task;
  trace : list action
}.

(** [Client.__init__] with its [max_messages] option. *)
Definition __init__ (max_messages : option Z) : Client :=
  let max_messages :=
    match max_messages with
    | None => 5000
    | Some m => if m <? 100 then 5000 else m
    end in
  {| ws := None;
     token := JNull;
     gateway := JNull;
     headers := {[ "content-type" := JStr "application/json" ]};
     connection := mkConnectionState max_messages JNull [];
     _closed := false;
     _is_logged_in := None;
     keep_alive := None;
     attrs := ∅ |}.

Definition start (c : Client) : World := mkWorld c [] [].

(** ** The monad of the coroutines *)

Definition M (A : Type) : Type := World -> Res A * World.

Definition ret {A} (a : A) : M A := fun w => (Return a, w).

Definition raise {A} (e : exn) : M A := fun w => (Raise e, w).

Definition bind {A B} (m : M A) (k : A -> M B) : M B :=
  fun w =>
    match m w with
    | (Return a, w') => k a w'
    | (Raise e, w') => (Raise e, w')
    end.

(** [try: m  except Exception: h]. *)
Definition try_except {A} (m : M A) (h : exn -> M A) : M A :=
  fun w =>
    match m w with
    | (Return a, w') => (Return a, w')
    | (Raise e, w') => h e w'
    end.

Declare Scope coro_scope.
Delimit Scope coro_scope with coro.
Bind Scope coro_scope with M.
Notation "x <- m ;; k" := (bind m (fun x => k))
  (at level 100, m at next level, right associativity) : coro_scope.
Notation "m ;; k" := (bind m (fun _ => k))
  (at level 100, right associativity) : coro_scope.
Local Open Scope coro_scope.

Definition emit (a : action) : M unit :=
  fun w => (Return tt, mkWorld (self w) (tasks w) (trace w ++ [a])).

Definition get_self : M Client := fun w => (Return (self w), w).

Definition modify_self (f : Client -> Client) : M unit :=
  fun w => (Return tt, mkWorld (f (self w)) (tasks w) (trace w)).

Definition log (lvl : loglevel) (fmt : string) (arg : json) : M unit :=
  emit (Log lvl fmt arg).

(** Field updates. *)
Definition set_ws (v : option WebSocket) (c : Client) : Client :=
  mkClient v (token c) (gateway c) (headers c) (connection c) (_closed c)
    (_is_logged_in c) (keep_alive c) (attrs c).
Definition set_token (v : json) (c : Client) : Client :=
  mkClient (ws c) v (gateway c) (headers c) (connection c) (_closed c)
    (_is_logged_in c) (keep_alive c) (attrs c).
Definition set_gateway (v : json) (c : Client) : Client :=
  mkClient (ws c) (token c) v (headers c) (connection c) (_closed c)
    (_is_logged_in c) (keep_alive c) (attrs c).
Definition set_headers (v : gmap string json) (c : Client) : Client :=
  mkClient (ws c) (token c) (gateway c) v (connection c) (_closed c)
    (_is_logged_in c) (keep_alive c) (attrs c).
Definition set_connection (v : ConnectionState) (c : Client) : Client :=
  mkClient (ws c) (token c) (gateway c) (headers c) v (_closed c)
    (_is_logged_in c) (keep_alive c) (attrs c).
Definition set_closed (v : bool) (c : Client) : Client :=
  mkClient (ws c) (token c) (gateway c) (headers c) (connection c) v
    (_is_logged_in c) (keep_alive c) (attrs c).
Definition set_is_logged_in (v : bool) (c : Client) : Client :=
  mkClient (ws c) (token c) (gateway c) (headers c) (connection c) (_closed c)
    (Some v) (keep_alive c) (attrs c).
Definition set_keep_alive (v : nat) (c : Client) : Client :=
  mkClient (ws c) (token c) (gateway c) (headers c) (connection c) (_closed c)
    (_is_logged_in c) (Some v) (attrs c).
Definition set_attr (name : string) (f : nat) (c : Client) : Client :=
  mkClient (ws c) (token c) (gateway c) (headers c) (connection c) (_closed c)
    (_is_logged_in c) (keep_alive c) (<[name := f]> (attrs c)).

(** ** Floating point

    Python's [float] is the IEEE 754 double; its operations are those of
    the standard library's [SpecFloat] at precision 53 and maximal exponent
    1024, which round to nearest, ties to even. *)

(** [float(z)] for an int: the nearest double, an infinity when [z] is
    beyond the range (where Python raises [OverflowError]). *)
Definition float_of_int (z : Z) : SpecFloat.spec_float :=
  SpecFloat.binary_normalize 53 1024 z 0 false.

(** The rational a finite double is, in lowest terms. *)
Definition float_value (f : SpecFloat.spec_float) : option Q :=
  match f with
  | SpecFloat.S754_zero _ => Some (Qmake 0 1)
  | SpecFloat.S754_finite s m e =>
      let n := if s then Zneg m else Zpos m in
      Some (Qred (match e with
                  | Zneg k => Qmake n (Pos.pow 2 k)
                  | _ => Qmake (n * 2 ^ e) 1
                  end))
  | _ => None
  end.

(** [z / 1000.0] for an int [z]: [None] when [z] does not convert to a
    float. *)
Definition millis_to_seconds (z : Z) : option Q :=
  match float_of_int z with
  | SpecFloat.S754_infinity _ | SpecFloat.S754_nan => None
  | x => float_value (SpecFloat.SFdiv 53 1024 x (float_of_int 1000))
  end.

(** What a parser of the state store does, step by step: it gives the
    store a new content, or hands an event to [dispatch]. *)
Inductive parser_step : Type :=
  | Store (cs : ConnectionState)
  | Dispatch (event : string) (a : args).

(** ** The methods of [Client] *)

Definition client_class : string := "<class 'discord.client.Client'>".

(** [__getattr__(name)] for a [name] outside the shim's five: the lookup of
    an attribute that was never assigned ends here. *)
Definition missing_attribute {A} (name : string) : M A :=
  raise (AttributeError client_class name).

(** The [is_logged_in] property returns [self._is_logged_in].  While that
    attribute does not exist the getter fails with [AttributeError], and
    Python then asks [__getattr__] for the property's own name. *)
Definition is_logged_in : M bool :=
  c <- get_self ;;
  match _is_logged_in c with
  | Some b => ret b
  | None => missing_attribute "is_logged_in"
  end.

Definition is_closed : M bool :=
  c <- get_self ;; ret (_closed c).

(** What an attribute name built by [dispatch] resolves to.  Such names
    start with [on_] or [handle_]; the instance dictionary comes first,
    and of the class's own attributes only [on_error] has such a name. *)
Inductive callable : Type :=
  | UserFn (f : nat)
  | DefaultOnError.

Definition lookup_attr (c : Client) (name : string) : option callable :=
  match attrs c !! name with
  | Some f => Some (UserFn f)
  | None => if String.eqb name "on_error" then Some DefaultOnError else None
  end.

Definition hasattr (c : Client) (name : string) : bool :=
  match lookup_attr c name with Some _ => true | None => false end.

(** Modelled from the spec: discord/utils.py ([create_task]) is not part
    of the sources.  It hands the coroutine to the event loop as "an
    independent unit of work", "fire-and-forget": the task is recorded as
    pending and nothing of it runs yet. *)
Definition create_task (c : coroutine) : M nat :=
  fun w =>
    let tid := length (tasks w) in
    (Return tid,
     mkWorld (self w) (tasks w ++ [mkTask c Pending])
       (trace w ++ [CreateTask tid c])).

(** [Task.cancel()]: a task that is not done becomes cancelled. *)
Definition cancel_state (t : task) : task :=
  match state t with
  | Finished _ | Cancelled => t
  | _ => mkTask (coro t) Cancelled
  end.

Definition cancel (tid : nat) : M unit :=
  fun w =>
    (Return tt,
     mkWorld (self w) (alter cancel_state tid (tasks w))
       (trace w ++ [CancelTask tid])).

(** [on_error(self, event_method, ...)]: the binding of its
    first parameter. *)
Definition bind_event_method (a : args) : Res json :=
  match pos a with
  | x :: _ =>
      match dict_item (kw a) "event_method" with
      | Some _ => Raise (TypeError "on_error() got multiple values for argument 'event_method'")
      | None => Return x
      end
  | [] =>
      match dict_item (kw a) "event_method" with
      | Some x => Return x
      | None => Raise (TypeError "on_error() missing 1 required positional argument: 'event_method'")
      end
  end.

(** The default [on_error]: a line on [sys.stderr], then
    [traceback.print_exc()], which prints the exception being handled
    ([exc_info]). *)
Definition on_error (exc_info : option exn) (a : args) : M unit :=
  match bind_event_method a with
  | Raise e => raise e
  | Return event_method =>
      emit (Stderr "Ignoring exception in {}" event_method) ;;
      emit (PrintExc exc_info)
  end.

Section Environment.

(** [sys.platform]. *)
Variable platform : string.

(** What calling (and, for a coroutine, running) the user's function
    [f] on the given arguments ends in. *)
Variable user_code : nat -> args -> Res unit.

(** Modelled from the spec: the parsers of [ConnectionState]
    (discord/state.py, not part of the sources), which are invoked
    "synchronously against the State Store" and were built with the
    client's [dispatch].  [has_parser name] is
    [hasattr(self.connection, name)]; [parse name data cs] gives what the
    parser does on the payload [data] when the store is [cs]: its steps
    in order, and how it ends. *)
Variable has_parser : string -> bool.
Variable parse : string -> json -> ConnectionState -> list parser_step * Res unit.

Definition lift {A} (r : Res A) : M A := fun w => (r, w).

(** [yield from getattr(self, name)( *args, **kwargs)]. *)
Definition invoke (exc_info : option exn) (name : string) (a : args) : M unit :=
  c <- get_self ;;
  match lookup_attr c name with
  | None => missing_attribute name
  | Some (UserFn f) => emit (Call name a) ;; lift (user_code f a)
  | Some DefaultOnError => on_error exc_info a
  end.

(** [getattr(self, name)( *args, **kwargs)], not awaited: the default
    [on_error] is a coroutine function, calling it runs nothing. *)
Definition call_sync (name : string) (a : args) : M unit :=
  c <- get_self ;;
  match lookup_attr c name with
  | None => missing_attribute name
  | Some (UserFn f) => emit (Call name a) ;; lift (user_code f a)
  | Some DefaultOnError => ret tt
  end.

Definition _run_event (event : string) (a : args) : M unit :=
  try_except (invoke None event a)
    (fun e => invoke (Some e) "on_error" (mkArgs (JStr event :: pos a) (kw a))).

Definition dispatch (event : string) (a : args) : M unit :=
  log DEBUG "Dispatching event {}" (JStr event) ;;
  let method := "on_" +:+ event in
  let handler := "handle_" +:+ event in
  c <- get_self ;;
  (if hasattr c handler then call_sync handler a else ret tt) ;;
  c <- get_self ;;
  if hasattr c method
  then _ <- create_task (RunEvent method a) ;; ret tt
  else ret tt.

Definition close : M unit :=
  c <- get_self ;;
  if _closed c then ret tt
  else
    match ws c with
    | None => raise (AttributeError "NoneType" "close")
    | Some _ =>
        emit WsClose ;;
        c <- get_self ;;
        match keep_alive c with
        | None => missing_attribute "keep_alive"
        | Some t =>
            cancel t ;;
            modify_self (set_closed true)
        end
    end.

(** An HTTP response: its status and what [resp.json()] gives ([None]
    when the body does not decode). *)
Record Response : Type := mkResponse {
  status : Z;
  body : option json
}.

Definition resp_json (resp : Response) : M json :=
  match body resp with
  | Some j => ret j
  | None => raise (ValueError "No JSON object could be decoded")
  end.

(** [v.get(k)]: only a dict has the method. *)
Definition py_get (v : json) (k : string) : M json :=
  match v with
  | JDict kv => ret (dict_get kv k)
  | _ => raise (AttributeError (type_name v) "get")
  end.

(** [v[k]] for a string key [k]. *)
Definition py_item (v : json) (k : string) : M json :=
  match v with
  | JDict kv =>
      match dict_item kv k with
      | Some x => ret x
      | None => raise (KeyError k)
      end
  | JStr _ => raise (TypeError "string indices must be integers")
  | JList _ => raise (TypeError "list indices must be integers")
  | _ => raise (TypeError (type_name v +:+ " object is not subscriptable"))
  end.

(** [v / 1000.0].  An int (a bool is one) is converted to a float, which
    fails beyond the range of a double, and divided in double precision;
    the quotient is passed on as the rational it is. *)
Definition truediv_1000 (v : json) : M Q :=
  let int_div z :=
    match millis_to_seconds z with
    | Some q => ret q
    | None => raise (OverflowError "int too large to convert to float")
    end in
  match v with
  | JInt z => int_div z
  | JBool b => int_div (if b then 1 else 0)
  | _ => raise (TypeError ("unsupported operand type(s) for /: " +:+ type_name v +:+ " and float"))
  end.

Definition set_email (v : json) (c : Client) : Client :=
  set_connection
    (mkConnectionState (cs_max_messages (connection c)) v
       (cs_messages (connection c))) c.

Definition request_logging_format : string :=
  "{method} {response.url} has returned {response.status}".

(** [login(email, password)]; [resp] is the server's answer to the
    POST. *)
Definition login (email password : string) (resp : Response) : M unit :=
  let payload := JDict [("email", JStr email); ("password", JStr password)] in
  let data := to_json payload in
  c <- get_self ;;
  emit (HttpPost LOGIN (Some data) (headers c)) ;;
  log DEBUG request_logging_format (JInt (status resp)) ;;
  if status resp =? 400 then
    raise (LoginFailure "Improper credentials have been passed.")
  else if negb (status resp =? 200) then
    data <- resp_json resp ;;
    message <- py_get data "message" ;;
    raise (HTTPException (status resp) message)
  else
    log INFO "logging in returned status code {}" (JInt (status resp)) ;;
    modify_self (set_email (JStr email)) ;;
    body <- resp_json resp ;;
    tok <- py_item body "token" ;;
    modify_self (set_token tok) ;;
    modify_self (fun c => set_headers (<["authorization" := tok]> (headers c)) c) ;;
    modify_self (set_is_logged_in true).

Definition logout : M unit :=
  c <- get_self ;;
  emit (HttpPost LOGOUT None (headers c)) ;;
  close ;;
  modify_self (set_is_logged_in false) ;;
  log DEBUG request_logging_format JNull.

(** ** The keep-alive task *)

(** The heartbeat frame built at the clock reading [now], which is
    [int(time.time())]. *)
Definition heartbeat_payload (now : Z) : json :=
  JDict [("op", JInt 1); ("d", JInt now)].

(** [keep_alive_handler(interval)] from the head of its loop up to the
    suspension in [ws.send]: [None] when the loop is left. *)
Definition keep_alive_head (now : Z) : M (option unit) :=
  c <- get_self ;;
  if _closed c then ret None
  else
    let payload := heartbeat_payload now in
    log DEBUG "Keeping websocket alive with timestamp {}" (JInt now) ;;
    match ws c with
    | None => raise (AttributeError "NoneType" "send")
    | Some _ => emit (WsSend (to_json payload)) ;; ret (Some tt)
    end.

(** One resumption of the coroutine [keep_alive_handler(interval)]
    suspended at [st]; it runs to its next suspension point. *)
Definition keep_alive_handler (interval : Q) (now : Z) (st : task_state)
  : World -> task_state * World :=
  fun w =>
    match st with
    | Pending | InSleep =>
        match keep_alive_head now w with
        | (Return (Some _), w') => (InSend, w')
        | (Return None, w') => (Finished (Return tt), w')
        | (Raise e, w') => (Finished (Raise e), w')
        end
    | InSend =>
        (InSleep, snd (emit (Sleep interval) w))
    | _ => (st, w)
    end.

(** ** The receive path *)

Definition known_events : list string :=
  [ "READY"; "MESSAGE_CREATE"; "MESSAGE_DELETE";
    "MESSAGE_UPDATE"; "PRESENCE_UPDATE"; "USER_UPDATE";
    "CHANNEL_DELETE"; "CHANNEL_UPDATE"; "CHANNEL_CREATE";
    "GUILD_MEMBER_ADD"; "GUILD_MEMBER_REMOVE";
    "GUILD_MEMBER_UPDATE"; "GUILD_CREATE"; "GUILD_DELETE";
    "GUILD_ROLE_CREATE"; "GUILD_ROLE_DELETE"; "TYPING_START";
    "GUILD_ROLE_UPDATE"; "VOICE_STATE_UPDATE" ].

(** [event in (...)]: the name of a known event, if [event] is one. *)
Definition known_event (event : json) : option string :=
  match event with
  | JStr e => if existsb (String.eqb e) known_events then Some e else None
  | _ => None
  end.

(** The steps of a parser, in order; an exception of [dispatch] leaves
    the parser at that step. *)
Fixpoint run_steps (l : list parser_step) : M unit :=
  match l with
  | [] => ret tt
  | Store cs :: l' => modify_self (set_connection cs) ;; run_steps l'
  | Dispatch e a :: l' => dispatch e a ;; run_steps l'
  end.

(** [getattr(self.connection, parser)(data)]: the parser runs on the
    store as it is, updating it and handing its events to [dispatch], and
    ends. *)
Definition run_parser (parser : string) (data : json) : M unit :=
  emit (Parse parser data) ;;
  c <- get_self ;;
  run_steps (fst (parse parser data (connection c))) ;;
  lift (snd (parse parser data (connection c))).

Definition received_message (msg : json) : M unit :=
  log DEBUG "WebSocket Event: {}" msg ;;
  dispatch "socket_response" (positional [msg]) ;;
  op <- py_get msg "op" ;;
  data <- py_get msg "d" ;;
  if negb (py_eq_zero op) then
    log INFO "Unhandled op {}" op
  else
    event <- py_get msg "t" ;;
    (if py_eq_str event "READY" then
       ms <- py_item data "heartbeat_interval" ;;
       interval <- truediv_1000 ms ;;
       t <- create_task (KeepAlive interval) ;;
       modify_self (set_keep_alive t)
     else ret tt) ;;
    match known_event event with
    | Some e =>
        let parser := "parse_" +:+ lower e in
        if has_parser parser then run_parser parser data else ret tt
    | None => log INFO "Unhandled event {}" event
    end.

Definition _get_gateway (resp : Response) : M json :=
  c <- get_self ;;
  emit (HttpGet GATEWAY (headers c)) ;;
  if negb (status resp =? 200) then raise GatewayNotFound
  else
    data <- resp_json resp ;;
    py_get data "url".

Definition handshake_payload (tok : json) : json :=
  JDict [("op", JInt 2);
         ("d", JDict [("token", tok);
                      ("properties",
                       JDict [("$os", JStr platform);
                              ("$browser", JStr "discord.py");
                              ("$device", JStr "discord.py");
                              ("$referrer", JStr "");
                              ("$referring_domain", JStr "")]);
                      ("v", JInt 3)])].

(** [_make_websocket()]; [resp] answers the gateway request. *)
Definition _make_websocket (resp : Response) : M unit :=
  logged <- is_logged_in ;;
  if negb logged then raise (ClientException "You must be logged in to connect")
  else
    gw <- _get_gateway resp ;;
    modify_self (set_gateway gw) ;;
    emit (WsConnect gw) ;;
    modify_self (set_ws (Some (mkWebSocket gw None))) ;;
    log INFO "Created websocket connected to {0.gateway}" gw ;;
    c <- get_self ;;
    let payload := handshake_payload (token c) in
    emit (WsSend (to_json payload)) ;;
    log INFO "sent the initial payload to create the websocket" JNull.

(** What [ws.recv()] returns: [None], or a text with the value
    [json.loads] decodes it to ([None] when it is not JSON). *)
Inductive received : Type :=
  | RecvNone
  | RecvText (decoded : option json).

(** How far [connect] got on the frames it was given: blocked in
    [ws.recv()] for the next one, or returned. *)
Inductive loop_status : Type :=
  | Receiving
  | Returned.

(** The [while not self._closed] loop of [connect], on the frames the
    socket delivers. *)
Fixpoint receive_loop (inbox : list received) : M loop_status :=
  c <- get_self ;;
  if _closed c then ret Returned
  else
    match inbox with
    | [] => ret Receiving
    | r :: inbox' =>
        emit WsRecv ;;
        match r with
        | RecvNone => close ;; ret Returned
        | RecvText None => raise (ValueError "No JSON object could be decoded")
        | RecvText (Some msg) => received_message msg ;; receive_loop inbox'
        end
    end.

Definition connect (resp : Response) (inbox : list received) : M loop_status :=
  _make_websocket resp ;;
  receive_loop inbox.

(** [event(coro)] for a coroutine function named [name]: [f] is the
    function, [is_coroutine] is [asyncio.iscoroutinefunction(coro)].  The
    name is not one of the five the [__setattr__] shim forwards to the
    connection. *)
Definition event (name : string) (f : nat) (is_coroutine : bool) : M unit :=
  if negb is_coroutine then
    raise (ClientException "event registered must be a coroutine function")
  else
    modify_self (set_attr name f) ;;
    log INFO "{0.__name__} has successfully been registered as an event" (JStr name).

(** ** The event loop *)

(** One resumption of a task: an event task runs [_run_event] to its
    end, a keep-alive task runs to its next suspension.  What the
    coroutine ends in stays in the task. *)
Definition resume_task (tid : nat) (now : Z) : World -> World :=
  fun w =>
    match tasks w !! tid with
    | None => w
    | Some t =>
        match coro t, state t with
        | RunEvent method a, Pending =>
            let '(r, w') := _run_event method a w in
            mkWorld (self w') (<[tid := mkTask (coro t) (Finished r)]> (tasks w'))
              (trace w')
        | KeepAlive interval, st =>
            let '(st', w') := keep_alive_handler interval now st w in
            mkWorld (self w') (<[tid := mkTask (coro t) st']> (tasks w'))
              (trace w')
        | _, _ => w
        end
    end.

Fixpoint resume_all (schedule : list (nat * Z)) (w : World) : World :=
  match schedule with
  | [] => w
  | (tid, now) :: rest => resume_all rest (resume_task tid now w)
  end.

(** The raw announcement every frame starts with: the debug line and
    [dispatch('socket_response', msg)]. *)
Definition announce (msg : json) (w : World) : Res unit * World :=
  dispatch "socket_response" (positional [msg])
    (snd (log DEBUG "WebSocket Event: {}" msg w)).

(** The world once the keep-alive task is created and stored. *)
Definition heartbeat_started (interval : Q) (w : World) : World :=
  mkWorld (set_keep_alive (length (tasks w)) (self w))
    (tasks w ++ [mkTask (KeepAlive interval) Pending])
    (trace w ++ [CreateTask (length (tasks w)) (KeepAlive interval)]).

End Environment.

(** * Observations and sample worlds *)

(** The messages the store holds after the client was built with the
    [max_messages] option [configured] and [ms] were appended in order. *)
Definition history_after (configured : option Z) (ms : list json) : ConnectionState :=
  foldl (fun cs m => cs_append m cs) (connection (__init__ configured)) ms.

(** A client with a state-mutation hook and a callback for [message],
    used to run the dispatcher on. *)
Definition listening_client : Client :=
  set_attr "handle_message" 1%nat (set_attr "on_message" 2%nat (__init__ None)).

(** Two worlds with the same client object and as many tasks. *)
Definition same_client (w1 w2 : World) : Prop :=
  self w1 = self w2 /\ length (tasks w1) = length (tasks w2).

(** [respects m]: on such worlds [m] ends alike, performs the same
    actions and leaves such worlds. *)
Definition respects {A} (m : M A) : Prop :=
  forall w1 w2, same_client w1 w2 ->
    fst (m w1) = fst (m w2)
    /\ same_client (snd (m w1)) (snd (m w2))
    /\ exists out, trace (snd (m w1)) = trace w1 ++ out
                   /\ trace (snd (m w2)) = trace w2 ++ out.

(** A client whose [on_message] callback is function 2. *)
Definition callback_client : Client := set_attr "on_message" 2%nat (__init__ None).

(** User code in which function 2 raises. *)
Definition failing_user_code (f : nat) (a : args) : Res unit :=
  if Nat.eqb f 2 then Raise (UserError "boom") else Return tt.

(** Actions that stay within the process and do not touch the tasks of
    others: logging, printing, calling user code, scheduling a callback. *)
Definition quiet (a : action) : bool :=
  match a with
  | Log _ _ _ | Stderr _ _ | PrintExc _ | Call _ _
  | CreateTask _ (RunEvent _ _) => true
  | _ => false
  end.

Definition quiet_or_parse (a : action) : bool :=
  match a with
  | Parse _ _ => true
  | _ => quiet a
  end.

Definition is_event_task (t : task) : bool :=
  match t with
  | mkTask (RunEvent _ _) Pending => true
  | _ => false
  end.

(** The client but for the state store. *)
Definition forget_store (c : Client) : Client :=
  set_connection (mkConnectionState 0 JNull []) c.

(** [store_only P m]: running [m] changes no attribute of the client but
    the state store, appends event tasks only, and performs actions in
    [P] only. *)
Definition store_only (P : action -> bool) {A} (m : M A) : Prop :=
  forall w,
    forget_store (self (snd (m w))) = forget_store (self w)
    /\ (exists ts, tasks (snd (m w)) = tasks w ++ ts
                   /\ Forall (fun t => is_event_task t = true) ts)
    /\ (exists out, trace (snd (m w)) = trace w ++ out
                    /\ Forall (fun a => P a = true) out).

(** [only P m]: running [m] keeps the client, appends event tasks only,
    and performs actions in [P] only. *)
Definition only (P : action -> bool) {A} (m : M A) : Prop :=
  forall w,
    self (snd (m w)) = self w
    /\ (exists ts, tasks (snd (m w)) = tasks w ++ ts
                   /\ Forall (fun t => is_event_task t = true) ts)
    /\ (exists out, trace (snd (m w)) = trace w ++ out
                    /\ Forall (fun a => P a = true) out).

(** The actions performed between two worlds. *)
Definition new_actions (before after : World) : list action :=
  drop (length (trace before)) (trace after).

(** Actions that run a handler: a call of user code, a parser of the
    state store, a task handed to the loop. *)
Definition invokes_handler (a : action) : bool :=
  match a with
  | Call _ _ | Parse _ _ | CreateTask _ _ => true
  | _ => false
  end.

(** A client with a hook and a callback for the raw [socket_response]
    event. *)
Definition raw_listener : Client :=
  set_attr "handle_socket_response" 3%nat
    (set_attr "on_socket_response" 4%nat (__init__ None)).

Definition ready_frame (ms : Z) : json :=
  JDict [("op", JInt 0); ("t", JStr "READY");
         ("d", JDict [("heartbeat_interval", JInt ms)])].

(** User code that always returns, a store without parsers. *)
Definition silent_user_code (f : nat) (a : args) : Res unit := Return tt.
Definition no_parser (name : string) : bool := false.
Definition no_parse (name : string) (data : json) (cs : ConnectionState)
  : list parser_step * Res unit :=
  ([], Return tt).

(** A store whose [parse_ready] hands [ready] to the dispatcher. *)
Definition ready_parser (name : string) : bool := String.eqb name "parse_ready".
Definition ready_parse (name : string) (data : json) (cs : ConnectionState)
  : list parser_step * Res unit :=
  ([Dispatch "ready" (positional [])], Return tt).

(** A store whose parsers add the payload to the message history and
    hand [message] to the dispatcher. *)
Definition history_parse (name : string) (data : json) (cs : ConnectionState)
  : list parser_step * Res unit :=
  ([Store (cs_append data cs); Dispatch "message" (positional [data])], Return tt).

(** The first action of a frame's processing that runs a handler. *)
Definition first_handling (out : list action) : option action :=
  head (List.filter invokes_handler out).

Definition is_ws_send (a : action) : bool :=
  match a with
  | WsSend _ => true
  | _ => false
  end.

(** One turn of the driver's loop: resumed at the head of the loop at
    clock reading [now], it runs to [ws.send]; resumed again, it runs to
    [asyncio.sleep]. *)
Definition beat user_code (tid : nat) (now : Z) (w : World) : World :=
  resume_task user_code tid now (resume_task user_code tid now w).

Fixpoint beats user_code (tid : nat) (nows : list Z) (w : World) : World :=
  match nows with
  | [] => w
  | now :: rest => beats user_code tid rest (beat user_code tid now w)
  end.

(** What one turn of the loop does at clock reading [now]. *)
Definition beat_actions (interval : Q) (now : Z) : list action :=
  [Log DEBUG "Keeping websocket alive with timestamp {}" (JInt now);
   WsSend (to_json (JDict [("op", JInt 1); ("d", JInt now)]));
   Sleep interval].

(** A connected client whose keep-alive task 0 was started with an
    interval of 41.25 seconds. *)
Definition streaming_client : Client :=
  set_keep_alive 0
    (set_ws (Some (mkWebSocket (JStr "wss://gateway") None)) (__init__ None)).

Definition streaming : World :=
  mkWorld streaming_client [mkTask (KeepAlive (Qmake 41250 1000)) Pending] [].


(** ** Argument helpers of the REST calls

    Text is a sequence of characters with codes below 256; among those the
    decimal digits of [\d] are [0] to [9]. *)

(** Modelled from the spec: discord/user.py is not part of the sources;
    [User] is a "plain data holder", of which the helper reads [id]. *)
Record User : Type := mkUser { user_id : string }.

(** The [mentions] argument: a list of users, or any other value. *)
Inductive mentions_arg : Type :=
  | MentionUsers (users : list User)
  | MentionValue (v : json).

Definition is_digit (c : ascii) : bool :=
  let n := nat_of_ascii c in (Nat.leb 48 n && Nat.leb n 57)%bool.

(** Where a scan for [<@(\d+)>] stands: outside a match, after [<],
    after [<@], or after [<@] and the digits [seen]. *)
Inductive mention_scan : Type :=
  | Outside
  | AfterLt
  | AfterAt
  | InDigits (seen : string).

(** The scan restarts on the character that broke a match: none of the
    characters consumed before it can start another one. *)
Definition mention_restart (c : ascii) : mention_scan :=
  if Ascii.eqb c "<" then AfterLt else Outside.

(** [re.findall(r'<@(\d+)>', content)], from state [st]. *)
Fixpoint findall_mentions (st : mention_scan) (content : string) : list string :=
  match content with
  | EmptyString => []
  | String c rest =>
      match st with
      | Outside => findall_mentions (mention_restart c) rest
      | AfterLt =>
          if Ascii.eqb c "@" then findall_mentions AfterAt rest
          else findall_mentions (mention_restart c) rest
      | AfterAt =>
          if is_digit c then findall_mentions (InDigits (String c EmptyString)) rest
          else findall_mentions (mention_restart c) rest
      | InDigits seen =>
          if is_digit c
          then findall_mentions (InDigits (seen +:+ String c EmptyString)) rest
          else if Ascii.eqb c ">" then seen :: findall_mentions Outside rest
          else findall_mentions (mention_restart c) rest
      end
  end.

(** [mentions == True]: [True] itself and the integer [1]. *)
Definition py_eq_true (v : json) : bool :=
  match v with
  | JBool b => b
  | JInt z => Z.eqb z 1
  | _ => false
  end.

(** [_resolve_mentions(content, mentions)].  A list that holds other
    things than users fails on the first element's [id]. *)
Definition _resolve_mentions (content : string) (mentions : mentions_arg)
  : Res (list string) :=
  match mentions with
  | MentionUsers users => Return (map user_id users)
  | MentionValue (JList []) => Return []
  | MentionValue (JList (x :: _)) => Raise (AttributeError (type_name x) "id")
  | MentionValue v =>
      if py_eq_true v then Return (findall_mentions Outside content)
      else Return []
  end.

(** The text [User.mention] gives for an id. *)
Definition mention_text (id : string) : string := "<@" +:+ id +:+ ">".

Fixpoint all_digits (s : string) : bool :=
  match s with
  | EmptyString => true
  | String c rest => (is_digit c && all_digits rest)%bool
  end.

Fixpoint no_lt (s : string) : bool :=
  match s with
  | EmptyString => true
  | String c rest => (negb (Ascii.eqb c "<") && no_lt rest)%bool
  end.

(** What the scan has seen of a match is a non-empty run of digits. *)
Definition scan_ok (st : mention_scan) : Prop :=
  match st with
  | InDigits seen => all_digits seen = true /\ seen <> ""
  | _ => True
  end.

(** A text with the mentions of [ids], each after a stretch without [<]. *)
Fixpoint mentioning (parts : list (string * string)) (tail : string) : string :=
  match parts with
  | [] => tail
  | (before, id) :: parts' => before +:+ mention_text id +:+ mentioning parts' tail
  end.

(** The [invite] argument: an [Invite] or [Object] with its [id], or a
    text. *)
Inductive invite_arg : Type :=
  | InviteObject (id : string)
  | InviteText (s : string).

(** [s] without the prefix [p], when it starts with it. *)
Fixpoint strip_prefix (p s : string) : option string :=
  match p, s with
  | EmptyString, _ => Some s
  | String a p', String b s' => if Ascii.eqb a b then strip_prefix p' s' else None
  | String _ _, EmptyString => None
  end.

(** What [.+] takes: the characters before the first newline. *)
Fixpoint line_of (s : string) : string :=
  match s with
  | EmptyString => EmptyString
  | String c rest =>
      if Ascii.eqb c (ascii_of_nat 10) then EmptyString else String c (line_of rest)
  end.

(** [re.match(r'(?:https?\:\/\/)?discord\.gg\/(.+)', s)]: group 1 of the
    match at the start of [s]. *)
Definition match_invite (s : string) : option string :=
  let after_scheme :=
    match strip_prefix "https://" s with
    | Some r => r
    | None =>
        match strip_prefix "http://" s with
        | Some r => r
        | None => s
        end
    end in
  match strip_prefix "discord.gg/" after_scheme with
  | Some code =>
      match line_of code with
      | EmptyString => None
      | g => Some g
      end
  | None => None
  end.

Definition _resolve_invite (invite : invite_arg) : string :=
  match invite with
  | InviteObject id => id
  | InviteText s =>
      match match_invite s with
      | Some code => code
      | None => s
      end
  end.

Fixpoint no_newline (s : string) : bool :=
  match s with
  | EmptyString => true
  | String c rest => (negb (Ascii.eqb c (ascii_of_nat 10)) && no_newline rest)%bool
  end.

(** ** Observations used by the further properties *)

(** Actions on the websocket. *)
Definition on_socket (a : action) : bool :=
  match a with
  | WsConnect _ | WsSend _ | WsRecv | WsClose => true
  | _ => false
  end.

(** [isinstance(v, dict)]. *)
Definition is_dict (v : json) : bool :=
  match v with
  | JDict _ => true
  | _ => false
  end.



(** The client but for the [keep_alive] attribute. *)
Definition forget_keep_alive (c : Client) : Client :=
  mkClient (ws c) (token c) (gateway c) (headers c) (connection c) (_closed c)
    (_is_logged_in c) None (attrs c).



(** A logged-in client: the state [login] leaves on success. *)
Definition logged_in_client (tok : json) : Client :=
  set_is_logged_in true
    (set_headers (<["authorization" := tok]> (headers (__init__ None)))
       (set_token tok (__init__ None))).

(** A gateway answer with a url. *)
Definition gateway_ok (url : string) : Response :=
  mkResponse 200 (Some (JDict [("url", JStr url)])).

(** * Properties *)

(** Running a coroutine by unfolding the monad. *)
Ltac run_coro :=
  unfold bind, ret, raise, get_self, modify_self, log, emit, lift; simpl.

Lemma bind_run {A B} (m : M A) (k : A -> M B) (w : World) :
  bind m k w =
    match m w with
    | (Return a, w') => k a w'
    | (Raise e, w') => (Raise e, w')
    end.
Proof. reflexivity. Qed.

(** ** The message history *)

Lemma cs_append_capacity m cs :
  cs_max_messages (cs_append m cs) = cs_max_messages cs.
Proof. reflexivity. Qed.

Lemma foldl_append_capacity ms cs :
  cs_max_messages (foldl (fun cs m => cs_append m cs) cs ms) = cs_max_messages cs.
Proof.
  revert cs. induction ms as [|m ms IH]; intros cs; simpl; [done|].
  by rewrite IH.
Qed.

(** Appending keeps the newest entries: after [ms] the history is the
    suffix of everything appended that fits the capacity. *)
Lemma foldl_append_messages ms cs :
  (length (cs_messages cs) <= Z.to_nat (cs_max_messages cs))%nat ->
  cs_messages (foldl (fun cs m => cs_append m cs) cs ms) =
  drop (length (cs_messages cs ++ ms) - Z.to_nat (cs_max_messages cs))
       (cs_messages cs ++ ms).
Proof.
  revert cs. induction ms as [|m ms IH]; intros cs Hle; simpl.
  - rewrite app_nil_r.
    replace (length (cs_messages cs) - Z.to_nat (cs_max_messages cs))%nat
      with 0%nat by lia.
    done.
  - rewrite IH.
    + simpl. set (n := Z.to_nat (cs_max_messages cs)).
      set (h := cs_messages cs).
      set (k := (length (h ++ [m]) - n)%nat).
      assert (Hk : (k <= length (h ++ [m]))%nat) by (unfold k; lia).
      rewrite <- (drop_app_le (h ++ [m]) ms k Hk).
      rewrite drop_drop.
      rewrite <- (assoc_L (++) h [m] ms). simpl.
      f_equal.
      rewrite length_drop. unfold k.
      rewrite !length_app. simpl. lia.
    + simpl. rewrite length_drop. lia.
Qed.

(** C8: the message history never holds more than its capacity, an
    append beyond the capacity evicts the oldest entries first (what
    remains is the newest messages in arrival order), and the capacity is
    5000 when [max_messages] is absent or below 100 and the configured
    value otherwise. *)
Theorem C8_history_bounded_fifo (configured : option Z) (ms : list json) :
  let cs := history_after configured ms in
  let capacity := cs_max_messages cs in
  capacity =
    match configured with
    | None => 5000
    | Some m => if 100 <=? m then m else 5000
    end
  /\ Z.of_nat (length (cs_messages cs)) <= capacity
  /\ cs_messages cs = drop (length ms - Z.to_nat capacity) ms.
Proof.
  intros cs capacity.
  assert (Hcap : capacity =
            match configured with
            | None => 5000
            | Some m => if 100 <=? m then m else 5000
            end).
  { unfold capacity, cs, history_after. rewrite foldl_append_capacity.
    destruct configured as [m|]; simpl; [|done].
    destruct (Z.ltb_spec m 100), (Z.leb_spec 100 m); lia. }
  assert (Hmsgs : cs_messages cs = drop (length ms - Z.to_nat capacity) ms).
  { unfold capacity, cs, history_after.
    rewrite foldl_append_messages by (simpl; lia).
    rewrite foldl_append_capacity. done. }
  split; [done|]. split; [|done].
  rewrite Hmsgs, length_drop.
  assert (0 <= capacity) by (rewrite Hcap; destruct configured as [m|];
    [destruct (Z.leb_spec 100 m)|]; lia).
  lia.
Qed.

(** The oldest entry goes first: one append to a full history. *)
Lemma cs_append_full m cs old rest :
  cs_messages cs = old :: rest ->
  length (cs_messages cs) = Z.to_nat (cs_max_messages cs) ->
  cs_messages (cs_append m cs) = rest ++ [m].
Proof.
  intros Hl Hlen. unfold cs_append. simpl.
  rewrite length_app. simpl.
  replace (length (cs_messages cs) + 1 - Z.to_nat (cs_max_messages cs))%nat
    with 1%nat by lia.
  rewrite Hl. done.
Qed.

(** ** Connecting and closing *)

(** C1: a client that never logged in has no [_is_logged_in] attribute, so
    [connect] fails in the [is_logged_in] property with [AttributeError]
    before any request is made; the [ClientException] that
    [_make_websocket] means to raise is not reached. *)
Theorem C1_connect_before_login platform user_code has_parser parse
    (configured : option Z) (resp : Response) (inbox : list received) :
  connect platform user_code has_parser parse resp inbox (start (__init__ configured))
  = (Raise (AttributeError client_class "is_logged_in"), start (__init__ configured)).
Proof. reflexivity. Qed.

(** Whenever the attribute is missing, [connect] fails that way and
    leaves the world as it was: nothing is requested, opened or sent. *)
Lemma connect_without_flag platform user_code has_parser parse resp inbox w :
  _is_logged_in (self w) = None ->
  connect platform user_code has_parser parse resp inbox w
  = (Raise (AttributeError client_class "is_logged_in"), w).
Proof.
  intros H. unfold connect, _make_websocket, is_logged_in, bind, get_self.
  rewrite H. reflexivity.
Qed.

(** Once the flag exists and is [False] (after [logout]), the intended
    [ClientException] is raised, again before any request. *)
Lemma connect_logged_out platform user_code has_parser parse resp inbox w :
  _is_logged_in (self w) = Some false ->
  connect platform user_code has_parser parse resp inbox w
  = (Raise (ClientException "You must be logged in to connect"), w).
Proof.
  intros H. unfold connect, _make_websocket, is_logged_in, bind, get_self.
  rewrite H. reflexivity.
Qed.

(** C10: on a client with no websocket and no keep-alive task, [close]
    raises [AttributeError] and changes nothing: [_closed] stays [False]. *)
Theorem C10_close_before_connect (w : World) :
  ws (self w) = None ->
  keep_alive (self w) = None ->
  _closed (self w) = false ->
  close w = (Raise (AttributeError "NoneType" "close"), w)
  /\ _closed (self (snd (close w))) = false.
Proof.
  intros Hws Hka Hclosed.
  assert (E : close w = (Raise (AttributeError "NoneType" "close"), w)).
  { unfold close, bind, get_self. rewrite Hclosed, Hws. reflexivity. }
  rewrite E. split; [reflexivity | exact Hclosed].
Qed.

Lemma C10_close_before_connect_witness :
  close (start (__init__ None))
  = (Raise (AttributeError "NoneType" "close"), start (__init__ None))
  /\ _closed (self (snd (close (start (__init__ None))))) = false.
Proof.
  apply (C10_close_before_connect (start (__init__ None))); reflexivity.
Defined.

(** With a websocket but no keep-alive task the socket is closed, then the
    missing [keep_alive] attribute raises; [_closed] stays [False] too. *)
Lemma close_without_keep_alive w sock :
  ws (self w) = Some sock ->
  keep_alive (self w) = None ->
  _closed (self w) = false ->
  close w = (Raise (AttributeError client_class "keep_alive"),
             mkWorld (self w) (tasks w) (trace w ++ [WsClose])).
Proof.
  intros Hws Hka Hclosed.
  unfold close, bind, get_self. rewrite Hclosed, Hws. simpl. rewrite Hka.
  reflexivity.
Qed.

(** ** Logging in *)

(** C4: a login answered with status 400 raises [LoginFailure] and leaves
    the client as it was: the token, the stored email and the logged-in
    flag keep their values.  [LoginFailure] is raised for no other status:
    every other status but 200 ends in a different failure. *)
Theorem C4_login_rejected (email password : string) (resp : Response) (w : World) :
  status resp = 400 ->
  fst (login email password resp w)
    = Raise (LoginFailure "Improper credentials have been passed.")
  /\ self (snd (login email password resp w)) = self w
  /\ token (self (snd (login email password resp w))) = token (self w)
  /\ cs_email (connection (self (snd (login email password resp w))))
       = cs_email (connection (self w))
  /\ _is_logged_in (self (snd (login email password resp w)))
       = _is_logged_in (self w)
  /\ (forall other : Response,
        match fst (login email password other w) with
        | Return _ => status other = 200
        | Raise (LoginFailure _) => status other = 400
        | Raise (HTTPException s _) =>
            s = status other /\ s <> 400 /\ s <> 200
        | Raise _ => status other <> 400
        end).
Proof.
  intros H400.
  assert (E : login email password resp w =
    (Raise (LoginFailure "Improper credentials have been passed."),
     mkWorld (self w) (tasks w)
       (trace w ++
          [HttpPost LOGIN
             (Some (to_json (JDict [("email", JStr email); ("password", JStr password)])))
             (headers (self w))] ++
          [Log DEBUG request_logging_format (JInt (status resp))]))).
  { unfold login. run_coro. rewrite H400. simpl. by rewrite <- app_assoc. }
  rewrite E. simpl. repeat split.
  intros other. unfold login, resp_json, py_get, py_item. run_coro.
  destruct (Z.eqb_spec (status other) 400) as [->|Hne]; simpl; [done|].
  destruct (Z.eqb_spec (status other) 200) as [->|Hne2]; simpl.
  - destruct (body other) as [[| | | | |kv]|]; simpl; try done.
    destruct (dict_item kv "token"); simpl; done.
  - destruct (body other) as [[| | | | |kv]|]; simpl; done.
Qed.

Lemma C4_login_rejected_witness :
  fst (login "a@b.c" "pw" (mkResponse 400 None) (start (__init__ None)))
    = Raise (LoginFailure "Improper credentials have been passed.")
  /\ self (snd (login "a@b.c" "pw" (mkResponse 400 None) (start (__init__ None))))
       = __init__ None.
Proof.
  pose proof (C4_login_rejected "a@b.c" "pw" (mkResponse 400 None)
                (start (__init__ None)) eq_refl) as H.
  split; [exact (proj1 H) | exact (proj1 (proj2 H))].
Defined.

(** Any other status but 200 is the generic failure, with the server's
    message. *)
Example login_server_error :
  fst (login "a@b.c" "pw"
         (mkResponse 500 (Some (JDict [("message", JStr "oops")])))
         (start (__init__ None)))
  = Raise (HTTPException 500 (JStr "oops")).
Proof. reflexivity. Qed.

(** A login answered with 200 and a token does change the state. *)
Example login_accepted :
  let w := snd (login "a@b.c" "pw"
                  (mkResponse 200 (Some (JDict [("token", JStr "T")])))
                  (start (__init__ None))) in
  token (self w) = JStr "T"
  /\ cs_email (connection (self w)) = JStr "a@b.c"
  /\ _is_logged_in (self w) = Some true.
Proof. repeat split. Qed.

(** ** Dispatching *)

(** C3: when [handle_<event>] exists, [dispatch] calls it first and to its
    end.  If it raises, the exception leaves [dispatch] and nothing is
    scheduled.  If it returns, the callback [on_<event>], when there is
    one, is handed to the event loop as a pending task: [dispatch] returns
    without running it. *)
Theorem C3_handler_before_callback user_code
    (event : string) (a : args) (h : nat) (w : World) :
  attrs (self w) !! ("handle_" +:+ event) = Some h ->
  let handled :=
    trace w ++ [Log DEBUG "Dispatching event {}" (JStr event);
                Call ("handle_" +:+ event) a] in
  let callback := RunEvent ("on_" +:+ event) a in
  dispatch user_code event a w =
    match user_code h a with
    | Raise e => (Raise e, mkWorld (self w) (tasks w) handled)
    | Return _ =>
        if hasattr (self w) ("on_" +:+ event)
        then (Return tt,
              mkWorld (self w) (tasks w ++ [mkTask callback Pending])
                (handled ++ [CreateTask (length (tasks w)) callback]))
        else (Return tt, mkWorld (self w) (tasks w) handled)
    end.
Proof.
  intros Hh handled callback. subst handled callback.
  unfold dispatch, call_sync, create_task, hasattr at 1, lookup_attr at 1.
  run_coro. rewrite Hh. simpl.
  unfold lookup_attr at 1. rewrite Hh. simpl.
  rewrite <- !app_assoc. simpl.
  destruct (user_code h a) as [[]|e]; simpl; [|done].
  destruct (hasattr (self w) ("on_" +:+ event)); simpl; [|done].
  by rewrite <- !app_assoc.
Qed.

Lemma C3_handler_before_callback_witness :
  dispatch (fun _ _ => Return tt) "message" (positional [JStr "hi"])
    (start listening_client)
  = (Return tt,
     mkWorld listening_client
       [mkTask (RunEvent "on_message" (positional [JStr "hi"])) Pending]
       [Log DEBUG "Dispatching event {}" (JStr "message");
        Call "handle_message" (positional [JStr "hi"]);
        CreateTask 0 (RunEvent "on_message" (positional [JStr "hi"]))]).
Proof.
  rewrite (C3_handler_before_callback (fun _ _ => Return tt) "message"
             (positional [JStr "hi"]) 1%nat (start listening_client));
    [reflexivity | vm_compute; reflexivity].
Defined.

(** A hook that raises keeps the callback from being scheduled. *)
Example dispatch_handler_raises :
  dispatch (fun f _ => if Nat.eqb f 1 then Raise (UserError "boom") else Return tt)
    "message" (positional [JStr "hi"]) (start listening_client)
  = (Raise (UserError "boom"),
     mkWorld listening_client []
       [Log DEBUG "Dispatching event {}" (JStr "message");
        Call "handle_message" (positional [JStr "hi"])]).
Proof. vm_compute. reflexivity. Qed.

(** ** What the client's code depends on

    The coroutines read the client object and the number of tasks of the
    loop (a new task's identifier); they never read the state of a task or
    the past actions.  Two worlds that agree on those are run alike. *)

Lemma same_client_refl w : same_client w w.
Proof. by split. Qed.

Lemma respects_ret {A} (a : A) : respects (ret a).
Proof.
  intros w1 w2 H. simpl. repeat split; try apply H.
  exists []. by rewrite !app_nil_r.
Qed.

Lemma respects_raise {A} (e : exn) : respects (@raise A e).
Proof.
  intros w1 w2 H. simpl. repeat split; try apply H.
  exists []. by rewrite !app_nil_r.
Qed.

Lemma respects_lift {A} (r : Res A) : respects (lift r).
Proof.
  intros w1 w2 H. simpl. repeat split; try apply H.
  exists []. by rewrite !app_nil_r.
Qed.

Lemma respects_emit (a : action) : respects (emit a).
Proof.
  intros w1 w2 H. simpl. repeat split; try apply H. by exists [a].
Qed.

Lemma respects_log lvl fmt arg : respects (log lvl fmt arg).
Proof. apply respects_emit. Qed.

Lemma respects_modify_self (f : Client -> Client) : respects (modify_self f).
Proof.
  intros w1 w2 [Hs Hl]. split; [done|]. split.
  - split; simpl; [by rewrite Hs | done].
  - exists []. simpl. by rewrite !app_nil_r.
Qed.

Lemma respects_create_task (c : coroutine) : respects (create_task c).
Proof.
  intros w1 w2 [Hs Hl]. unfold create_task. simpl. split; [by rewrite Hl|].
  split.
  - split; simpl; [done | by rewrite !length_app, Hl].
  - exists [CreateTask (length (tasks w1)) c]. by rewrite Hl.
Qed.

Lemma respects_cancel (tid : nat) : respects (cancel tid).
Proof.
  intros w1 w2 [Hs Hl]. unfold cancel. simpl. split; [done|]. split.
  - split; simpl; [done | by rewrite !length_alter].
  - by exists [CancelTask tid].
Qed.

Lemma respects_bind {A B} (m : M A) (k : A -> M B) :
  respects m -> (forall a, respects (k a)) -> respects (bind m k).
Proof.
  intros Hm Hk w1 w2 H. unfold bind.
  destruct (Hm w1 w2 H) as (Hr & Hs & out & Ht1 & Ht2).
  destruct (m w1) as [r1 w1'], (m w2) as [r2 w2']. simpl in *. subst r2.
  destruct r1 as [a|e]; simpl.
  - destruct (Hk a w1' w2' Hs) as (Hr' & Hs' & out' & Ht1' & Ht2').
    repeat split; try apply Hs'; [done|].
    exists (out ++ out'). rewrite Ht1', Ht2', Ht1, Ht2. by rewrite !app_assoc.
  - repeat split; try apply Hs. by exists out.
Qed.

Lemma respects_try_except {A} (m : M A) (h : exn -> M A) :
  respects m -> (forall e, respects (h e)) -> respects (try_except m h).
Proof.
  intros Hm Hh w1 w2 H. unfold try_except.
  destruct (Hm w1 w2 H) as (Hr & Hs & out & Ht1 & Ht2).
  destruct (m w1) as [r1 w1'], (m w2) as [r2 w2']. simpl in *. subst r2.
  destruct r1 as [a|e]; simpl.
  - repeat split; try apply Hs. by exists out.
  - destruct (Hh e w1' w2' Hs) as (Hr' & Hs' & out' & Ht1' & Ht2').
    repeat split; try apply Hs'; [done|].
    exists (out ++ out'). rewrite Ht1', Ht2', Ht1, Ht2. by rewrite !app_assoc.
Qed.

(** A coroutine that starts by reading the client. *)
Lemma respects_with_self {A} (k : Client -> M A) :
  (forall c, respects (k c)) -> respects (bind get_self k).
Proof.
  intros Hk w1 w2 H. unfold bind, get_self.
  destruct H as [Hs Hl]. rewrite Hs. apply Hk. by split.
Qed.

Create HintDb respects.
#[local] Hint Resolve respects_ret respects_raise respects_lift respects_emit
  respects_log respects_modify_self respects_create_task respects_cancel
  : respects.

Ltac respects_step :=
  match goal with
  | |- forall _, _ => intros
  | |- respects (bind get_self _) => apply respects_with_self
  | |- respects (bind _ _) => apply respects_bind
  | |- respects (try_except _ _) => apply respects_try_except
  | |- respects (match ?x with _ => _ end) => destruct x
  | |- respects (if ?b then _ else _) => destruct b
  | |- respects _ => solve [auto with respects]
  end.

Ltac respects_auto := repeat respects_step.

Lemma respects_on_error exc_info a : respects (on_error exc_info a).
Proof. unfold on_error. respects_auto. Qed.

Lemma respects_missing_attribute {A} name : respects (@missing_attribute A name).
Proof. apply respects_raise. Qed.

#[local] Hint Resolve respects_on_error respects_missing_attribute : respects.

Section EnvironmentFacts.

Variable user_code : nat -> args -> Res unit.
Variable has_parser : string -> bool.
Variable parse : string -> json -> ConnectionState -> list parser_step * Res unit.

Lemma respects_invoke exc_info name a :
  respects (invoke user_code exc_info name a).
Proof. unfold invoke. respects_auto. Qed.

Lemma respects_call_sync name a : respects (call_sync user_code name a).
Proof. unfold call_sync. respects_auto. Qed.

Hint Resolve respects_invoke respects_call_sync : respects.

Lemma respects_run_event event a : respects (_run_event user_code event a).
Proof. unfold _run_event. respects_auto. Qed.

Lemma respects_dispatch event a : respects (dispatch user_code event a).
Proof. unfold dispatch. respects_auto. Qed.

Hint Resolve respects_dispatch : respects.

Lemma respects_run_steps l : respects (run_steps user_code l).
Proof.
  induction l as [|[cs|e a] l IH]; simpl; respects_auto.
Qed.

Hint Resolve respects_run_steps : respects.

Lemma respects_close : respects close.
Proof. unfold close. respects_auto. Qed.

Lemma respects_py_get v k : respects (py_get v k).
Proof. unfold py_get. respects_auto. Qed.

Lemma respects_py_item v k : respects (py_item v k).
Proof. unfold py_item. respects_auto. Qed.

Lemma respects_truediv_1000 v : respects (truediv_1000 v).
Proof. unfold truediv_1000. respects_auto. Qed.

Hint Resolve respects_close respects_py_get respects_py_item
  respects_truediv_1000 : respects.

Lemma respects_run_parser parser data :
  respects (run_parser user_code parse parser data).
Proof. unfold run_parser. respects_auto. Qed.

Hint Resolve respects_run_parser : respects.

Lemma respects_received_message msg :
  respects (received_message user_code has_parser parse msg).
Proof. unfold received_message. respects_auto. Qed.

Hint Resolve respects_received_message : respects.


End EnvironmentFacts.

(** ** Failing callbacks *)

Section Isolation.

Variable user_code : nat -> args -> Res unit.
Variable has_parser : string -> bool.
Variable parse : string -> json -> ConnectionState -> list parser_step * Res unit.

(** Calling an attribute touches neither the client nor the tasks. *)
Lemma invoke_frame exc_info name a w :
  self (snd (invoke user_code exc_info name a w)) = self w
  /\ tasks (snd (invoke user_code exc_info name a w)) = tasks w.
Proof.
  unfold invoke, on_error, missing_attribute. run_coro.
  destruct (lookup_attr (self w) name) as [[f|]|]; simpl; [done | | done].
  destruct (bind_event_method a); done.
Qed.

(** Running an event task touches neither the client nor the tasks. *)
Lemma run_event_frame event a w :
  self (snd (_run_event user_code event a w)) = self w
  /\ tasks (snd (_run_event user_code event a w)) = tasks w.
Proof.
  unfold _run_event, try_except.
  pose proof (invoke_frame None event a w) as [Hs Ht].
  destruct (invoke user_code None event a w) as [[[]|e] w1]; simpl in *;
    [done|].
  pose proof (invoke_frame (Some e) "on_error"
                (mkArgs (JStr event :: pos a) (kw a)) w1) as [Hs' Ht'].
  by rewrite Hs', Ht'.
Qed.


End Isolation.


Example event_method_keyword_trace :
  let a := mkArgs [JStr "hi"] [("event_method", JStr "x")] in
  let w := mkWorld callback_client [mkTask (RunEvent "on_message" a) Pending] [] in
  let w' := resume_task failing_user_code 0 1700000000 w in
  trace w' = [Call "on_message" a]
  /\ tasks w' !! 0%nat
     = Some (mkTask (RunEvent "on_message" a)
               (Finished (Raise (TypeError
                  "on_error() got multiple values for argument 'event_method'")))).
Proof. vm_compute. split; reflexivity. Qed.


(** ** What dispatching can do

    [dispatch] and the code it runs log, call user code, print and create
    event tasks.  They leave the client object alone and neither cancel a
    task nor touch the network. *)

Lemma only_nothing {A} P (m : M A) :
  (forall w, snd (m w) = w) -> only P m.
Proof.
  intros H w. rewrite H. split; [done|].
  split; exists []; by rewrite app_nil_r.
Qed.

Lemma only_ret {A} P (a : A) : only P (ret a).
Proof. by apply only_nothing. Qed.

Lemma only_raise {A} P e : only P (@raise A e).
Proof. by apply only_nothing. Qed.

Lemma only_lift {A} P (r : Res A) : only P (lift r).
Proof. by apply only_nothing. Qed.

Lemma only_get_self P : only P get_self.
Proof. by apply only_nothing. Qed.

Lemma only_emit (P : action -> bool) a : P a = true -> only P (emit a).
Proof.
  intros Ha w. simpl. split; [done|]. split.
  - exists []. by rewrite app_nil_r.
  - exists [a]. split; [done|]. by constructor.
Qed.

Lemma only_create_event_task (P : action -> bool) method a :
  (forall tid, P (CreateTask tid (RunEvent method a)) = true) ->
  only P (create_task (RunEvent method a)).
Proof.
  intros HP w. unfold create_task. simpl. split; [done|]. split.
  - eexists. split; [done|]. by constructor.
  - eexists. split; [done|]. constructor; [apply HP | constructor].
Qed.

Lemma only_bind {A B} P (m : M A) (k : A -> M B) :
  only P m -> (forall a, only P (k a)) -> only P (bind m k).
Proof.
  intros Hm Hk w. unfold bind.
  destruct (Hm w) as (Hs & (ts & Ht & Hts) & (out & Ho & Hout)).
  destruct (m w) as [[a|e] w1]; simpl in *.
  - destruct (Hk a w1) as (Hs' & (ts' & Ht' & Hts') & (out' & Ho' & Hout')).
    split; [by rewrite Hs', Hs|]. split.
    + exists (ts ++ ts'). rewrite Ht', Ht, app_assoc. split; [done|].
      by apply Forall_app.
    + exists (out ++ out'). rewrite Ho', Ho, app_assoc. split; [done|].
      by apply Forall_app.
  - split; [done|]. split; [by exists ts | by exists out].
Qed.

Lemma only_try_except {A} P (m : M A) (h : exn -> M A) :
  only P m -> (forall e, only P (h e)) -> only P (try_except m h).
Proof.
  intros Hm Hh w. unfold try_except.
  destruct (Hm w) as (Hs & (ts & Ht & Hts) & (out & Ho & Hout)).
  destruct (m w) as [[a|e] w1]; simpl in *.
  - split; [done|]. split; [by exists ts | by exists out].
  - destruct (Hh e w1) as (Hs' & (ts' & Ht' & Hts') & (out' & Ho' & Hout')).
    split; [by rewrite Hs', Hs|]. split.
    + exists (ts ++ ts'). rewrite Ht', Ht, app_assoc. split; [done|].
      by apply Forall_app.
    + exists (out ++ out'). rewrite Ho', Ho, app_assoc. split; [done|].
      by apply Forall_app.
Qed.

Lemma only_weaken {A} (P Q : action -> bool) (m : M A) :
  (forall a, P a = true -> Q a = true) -> only P m -> only Q m.
Proof.
  intros HPQ Hm w. destruct (Hm w) as (Hs & Ht & (out & Ho & Hout)).
  split; [done|]. split; [done|]. exists out. split; [done|].
  eapply Forall_impl; [exact Hout | exact HPQ].
Qed.

Create HintDb only.
#[local] Hint Resolve only_ret only_raise only_lift only_get_self : only.

Ltac only_step :=
  match goal with
  | |- forall _, _ => intros
  | |- only _ (bind _ _) => apply only_bind
  | |- only _ (try_except _ _) => apply only_try_except
  | |- only _ (log _ _ _) => apply only_emit; reflexivity
  | |- only _ (emit _) => apply only_emit; reflexivity
  | |- only _ (create_task (RunEvent _ _)) =>
      apply only_create_event_task; reflexivity
  | |- only _ (match ?x with _ => _ end) => destruct x
  | |- only _ (if ?b then _ else _) => destruct b
  | |- only _ _ => solve [auto with only]
  end.

Ltac only_auto := repeat only_step.

(** Two clients equal up to the state store agree on every other
    attribute. *)
Lemma forget_store_fields c' c :
  forget_store c' = forget_store c ->
  ws c' = ws c /\ token c' = token c /\ gateway c' = gateway c
  /\ headers c' = headers c /\ _closed c' = _closed c
  /\ _is_logged_in c' = _is_logged_in c /\ keep_alive c' = keep_alive c
  /\ attrs c' = attrs c.
Proof.
  destruct c', c. unfold forget_store, set_connection. simpl.
  intros H. injection H as -> -> -> -> -> -> -> ->. repeat split.
Qed.

Lemma store_only_of_only {A} P (m : M A) : only P m -> store_only P m.
Proof.
  intros Hm w. destruct (Hm w) as (Hs & Ht & Ho).
  split; [by rewrite Hs | by split].
Qed.

Lemma store_only_set_connection P cs :
  store_only P (modify_self (set_connection cs)).
Proof.
  intros w. simpl. split; [done|].
  split; exists []; by rewrite app_nil_r.
Qed.

Lemma store_only_bind {A B} P (m : M A) (k : A -> M B) :
  store_only P m -> (forall a, store_only P (k a)) -> store_only P (bind m k).
Proof.
  intros Hm Hk w. unfold bind.
  destruct (Hm w) as (Hs & (ts & Ht & Hts) & (out & Ho & Hout)).
  destruct (m w) as [[a|e] w1]; simpl in *.
  - destruct (Hk a w1) as (Hs' & (ts' & Ht' & Hts') & (out' & Ho' & Hout')).
    split; [by rewrite Hs', Hs|]. split.
    + exists (ts ++ ts'). rewrite Ht', Ht, app_assoc. split; [done|].
      by apply Forall_app.
    + exists (out ++ out'). rewrite Ho', Ho, app_assoc. split; [done|].
      by apply Forall_app.
  - split; [done|]. split; [by exists ts | by exists out].
Qed.

Section DispatchEffects.

Variable user_code : nat -> args -> Res unit.
Variable has_parser : string -> bool.
Variable parse : string -> json -> ConnectionState -> list parser_step * Res unit.

Lemma only_on_error exc_info a : only quiet (on_error exc_info a).
Proof. unfold on_error. only_auto. Qed.

Hint Resolve only_on_error : only.

Lemma only_invoke exc_info name a :
  only quiet (invoke user_code exc_info name a).
Proof. unfold invoke, missing_attribute. only_auto. Qed.

Lemma only_call_sync name a : only quiet (call_sync user_code name a).
Proof. unfold call_sync, missing_attribute. only_auto. Qed.

Hint Resolve only_invoke only_call_sync : only.

Lemma only_run_event event a : only quiet (_run_event user_code event a).
Proof. unfold _run_event. only_auto. Qed.

Lemma only_dispatch event a : only quiet (dispatch user_code event a).
Proof. unfold dispatch. only_auto. Qed.

Hint Resolve only_dispatch : only.

Lemma store_only_run_steps l : store_only quiet (run_steps user_code l).
Proof.
  induction l as [|[cs|e a] l IH]; simpl.
  - apply store_only_of_only, only_ret.
  - apply store_only_bind; [apply store_only_set_connection | done].
  - apply store_only_bind; [apply store_only_of_only, only_dispatch | done].
Qed.

(** A parser's actions: its call, then what its dispatches do. *)
Lemma run_parser_effect parser data w :
  forget_store (self (snd (run_parser user_code parse parser data w)))
  = forget_store (self w)
  /\ (exists ts, tasks (snd (run_parser user_code parse parser data w)) = tasks w ++ ts
                 /\ Forall (fun t => is_event_task t = true) ts)
  /\ exists out,
       trace (snd (run_parser user_code parse parser data w))
       = trace w ++ Parse parser data :: out
       /\ Forall (fun a => quiet a = true) out.
Proof.
  unfold run_parser. rewrite bind_run. simpl. rewrite bind_run. simpl.
  set (w0 := mkWorld (self w) (tasks w) (trace w ++ [Parse parser data])).
  set (steps := fst (parse parser data (connection (self w)))).
  set (r := snd (parse parser data (connection (self w)))).
  assert (H : store_only quiet (run_steps user_code steps ;; lift r)).
  { apply store_only_bind; [apply store_only_run_steps|].
    intros. apply store_only_of_only, only_lift. }
  destruct (H w0) as (Hs & Ht & (out & Ho & Hout)).
  split; [exact Hs|]. split; [exact Ht|].
  exists out. split; [|done]. rewrite Ho. simpl. by rewrite <- app_assoc.
Qed.

Lemma store_only_run_parser parser data :
  store_only quiet_or_parse (run_parser user_code parse parser data).
Proof.
  intros w. destruct (run_parser_effect parser data w) as (Hs & Ht & (out & Ho & Hout)).
  split; [exact Hs|]. split; [exact Ht|].
  exists (Parse parser data :: out). split; [done|].
  constructor; [done|]. eapply Forall_impl; [exact Hout|]. by intros [].
Qed.

End DispatchEffects.

(** ** Inbound frames *)

Lemma new_actions_app w w' out :
  trace w' = trace w ++ out -> new_actions w w' = out.
Proof. intros H. unfold new_actions. rewrite H. apply drop_app_length. Qed.

Lemma lower_READY : lower "READY" = "ready".
Proof. reflexivity. Qed.

#[local] Arguments lower : simpl never.

Section Frames.

Variable user_code : nat -> args -> Res unit.
Variable has_parser : string -> bool.
Variable parse : string -> json -> ConnectionState -> list parser_step * Res unit.

Lemma announce_effect msg w :
  self (snd (announce user_code msg w)) = self w
  /\ (exists ts, tasks (snd (announce user_code msg w)) = tasks w ++ ts
                 /\ Forall (fun t => is_event_task t = true) ts)
  /\ (exists out, trace (snd (announce user_code msg w)) = trace w ++ out
                  /\ Forall (fun a => quiet a = true) out).
Proof.
  assert (H : only quiet (log DEBUG "WebSocket Event: {}" msg ;;
                          dispatch user_code "socket_response" (positional [msg]))).
  { only_auto. apply only_dispatch. }
  exact (H w).
Qed.


(** A [READY] frame whose announcement returns: the keep-alive task is
    started next, and only then the parser runs. *)
Lemma received_message_ready kv d ms interval w :
  py_eq_zero (dict_get kv "op") = true ->
  dict_get kv "t" = JStr "READY" ->
  dict_get kv "d" = JDict d ->
  dict_item d "heartbeat_interval" = Some (JInt ms) ->
  millis_to_seconds ms = Some interval ->
  fst (announce user_code (JDict kv) w) = Return tt ->
  received_message user_code has_parser parse (JDict kv) w =
    (if has_parser "parse_ready"
     then run_parser user_code parse "parse_ready" (JDict d)
     else ret tt)
      (heartbeat_started interval (snd (announce user_code (JDict kv) w))).
Proof.
  intros Hop Ht Hd Hms Hsec Hann.
  unfold received_message, announce in *.
  rewrite bind_run. simpl in *. rewrite bind_run.
  destruct (dispatch user_code "socket_response" _ _) as [r w1]; simpl in *.
  subst r. unfold truediv_1000. run_coro. rewrite Hop, Ht, Hd. simpl.
  rewrite Hms. simpl. rewrite Hsec. simpl.
  rewrite lower_READY. change ("parse_" +:+ "ready") with "parse_ready".
  unfold heartbeat_started. destruct (has_parser "parse_ready"); reflexivity.
Qed.

(** An interval beyond the range of a float: [OverflowError], raised
    after the announcement; no task, no parser. *)
Lemma received_message_ready_overflow kv d ms w :
  py_eq_zero (dict_get kv "op") = true ->
  dict_get kv "t" = JStr "READY" ->
  dict_get kv "d" = JDict d ->
  dict_item d "heartbeat_interval" = Some (JInt ms) ->
  millis_to_seconds ms = None ->
  fst (announce user_code (JDict kv) w) = Return tt ->
  received_message user_code has_parser parse (JDict kv) w =
    (Raise (OverflowError "int too large to convert to float"),
     snd (announce user_code (JDict kv) w)).
Proof.
  intros Hop Ht Hd Hms Hsec Hann.
  unfold received_message, announce in *.
  rewrite bind_run. simpl in *. rewrite bind_run.
  destruct (dispatch user_code "socket_response" _ _) as [r w1]; simpl in *.
  subst r. unfold truediv_1000. run_coro. rewrite Hop, Ht, Hd. simpl.
  rewrite Hms. simpl. by rewrite Hsec.
Qed.


End Frames.

(** Whole numbers of a moderate size divide as expected; a thousandth is
    the double next to it; beyond the range of a float there is no
    quotient. *)
Example millis_to_seconds_samples :
  millis_to_seconds 45000 = Some (Qmake 45 1)
  /\ millis_to_seconds 41250 = Some (Qmake 165 4)
  /\ millis_to_seconds 1 = Some (Qmake 1152921504606847 1152921504606846976)
  /\ millis_to_seconds (10 ^ 400) = None.
Proof. vm_compute. repeat split. Qed.

#[local] Arguments millis_to_seconds : simpl never.


Example heartbeat_ack_trace :
  new_actions (start raw_listener)
    (snd (received_message silent_user_code no_parser no_parse
            (JDict [("op", JInt 11); ("d", JNull)]) (start raw_listener)))
  = [Log DEBUG "WebSocket Event: {}" (JDict [("op", JInt 11); ("d", JNull)]);
     Log DEBUG "Dispatching event {}" (JStr "socket_response");
     Call "handle_socket_response" (positional [JDict [("op", JInt 11); ("d", JNull)]]);
     CreateTask 0 (RunEvent "on_socket_response"
                     (positional [JDict [("op", JInt 11); ("d", JNull)]]));
     Log INFO "Unhandled op {}" (JInt 11)].
Proof. vm_compute. reflexivity. Qed.



(** A hook that raises ends the frame's processing before the log. *)
Example heartbeat_ack_hook_raises :
  received_message
    (fun f _ => if Nat.eqb f 3 then Raise (UserError "boom") else Return tt)
    no_parser no_parse (JDict [("op", JInt 11); ("d", JNull)]) (start raw_listener)
  = (Raise (UserError "boom"),
     mkWorld raw_listener []
       [Log DEBUG "WebSocket Event: {}" (JDict [("op", JInt 11); ("d", JNull)]);
        Log DEBUG "Dispatching event {}" (JStr "socket_response");
        Call "handle_socket_response"
          (positional [JDict [("op", JInt 11); ("d", JNull)]])]).
Proof. vm_compute. reflexivity. Qed.

(** C5, as stated, fails: the [socket_response] hook and callback of a
    [READY] frame are handled before the keep-alive task is started. *)
Lemma C5_socket_response_precedes_heartbeat :
  ~ (forall user_code has_parser parse (kv d : list (string * json)) (ms : Z)
            (w : World),
       py_eq_zero (dict_get kv "op") = true ->
       dict_get kv "t" = JStr "READY" ->
       dict_get kv "d" = JDict d ->
       dict_item d "heartbeat_interval" = Some (JInt ms) ->
       exists tid interval,
         first_handling
           (new_actions w (snd (received_message user_code has_parser parse (JDict kv) w)))
         = Some (CreateTask tid (KeepAlive interval))).
Proof.
  intros H.
  destruct (H silent_user_code ready_parser ready_parse
              [("op", JInt 0); ("t", JStr "READY");
               ("d", JDict [("heartbeat_interval", JInt 41250)])]
              [("heartbeat_interval", JInt 41250)] 41250
              (start raw_listener) eq_refl eq_refl eq_refl eq_refl)
    as (tid & interval & Htid).
  vm_compute in Htid. discriminate Htid.
Qed.

Example ready_frame_trace :
  new_actions (start raw_listener)
    (snd (received_message silent_user_code ready_parser ready_parse
            (ready_frame 41250) (start raw_listener)))
  = [Log DEBUG "WebSocket Event: {}" (ready_frame 41250);
     Log DEBUG "Dispatching event {}" (JStr "socket_response");
     Call "handle_socket_response" (positional [ready_frame 41250]);
     CreateTask 0 (RunEvent "on_socket_response" (positional [ready_frame 41250]));
     CreateTask 1 (KeepAlive (Qmake 165 4));
     Parse "parse_ready" (JDict [("heartbeat_interval", JInt 41250)]);
     Log DEBUG "Dispatching event {}" (JStr "ready")].
Proof. vm_compute. reflexivity. Qed.

(** C5, amended: on a [READY] dispatch frame whose announcement
    ([dispatch('socket_response', msg)]) returns and whose integer
    [heartbeat_interval] converts to a float, the interval is read from
    the payload and divided by 1000.0, and the keep-alive task is created
    with the quotient and stored in [keep_alive]; only then does
    [parse_ready] run.  Between the frame's arrival and the start of the
    task nothing but the announcement happens.  An interval beyond the
    range of a float raises [OverflowError] at the division, and neither
    the task nor the parser is started. *)
Theorem C5_ready_starts_heartbeat_before_parser user_code has_parser parse
    (kv d : list (string * json)) (ms : Z) (w : World) :
  py_eq_zero (dict_get kv "op") = true ->
  dict_get kv "t" = JStr "READY" ->
  dict_get kv "d" = JDict d ->
  dict_item d "heartbeat_interval" = Some (JInt ms) ->
  fst (announce user_code (JDict kv) w) = Return tt ->
  let announced := snd (announce user_code (JDict kv) w) in
  let tid := length (tasks announced) in
  received_message user_code has_parser parse (JDict kv) w
  = match millis_to_seconds ms with
    | Some interval =>
        (if has_parser "parse_ready"
         then run_parser user_code parse "parse_ready" (JDict d)
         else ret tt)
          (mkWorld (set_keep_alive tid (self announced))
             (tasks announced ++ [mkTask (KeepAlive interval) Pending])
             (trace announced ++ [CreateTask tid (KeepAlive interval)]))
    | None =>
        (Raise (OverflowError "int too large to convert to float"), announced)
    end
  /\ self announced = self w
  /\ Forall (fun a => quiet a = true) (new_actions w announced).
Proof.
  intros Hop Ht Hd Hms Hann announced tid.
  split.
  - destruct (millis_to_seconds ms) as [interval|] eqn:Hsec.
    + exact (received_message_ready user_code has_parser parse kv d ms interval w
               Hop Ht Hd Hms Hsec Hann).
    + exact (received_message_ready_overflow user_code has_parser parse kv d ms w
               Hop Ht Hd Hms Hsec Hann).
  - destruct (announce_effect user_code (JDict kv) w)
      as (Hs & _ & (out & Ho & Hout)).
    split; [exact Hs|]. by rewrite (new_actions_app w _ out).
Qed.

Lemma C5_ready_starts_heartbeat_before_parser_witness :
  received_message silent_user_code ready_parser ready_parse
    (ready_frame 41250) (start raw_listener)
  = run_parser silent_user_code ready_parse "parse_ready"
      (JDict [("heartbeat_interval", JInt 41250)])
      (heartbeat_started (Qmake 165 4)
         (snd (announce silent_user_code (ready_frame 41250) (start raw_listener)))).
Proof.
  pose proof (C5_ready_starts_heartbeat_before_parser silent_user_code
                ready_parser ready_parse
                [("op", JInt 0); ("t", JStr "READY");
                 ("d", JDict [("heartbeat_interval", JInt 41250)])]
                [("heartbeat_interval", JInt 41250)] 41250
                (start raw_listener) eq_refl eq_refl eq_refl eq_refl
                ltac:(vm_compute; reflexivity)) as H.
  cbv zeta in H. destruct H as [H _].
  replace (millis_to_seconds 41250) with (Some (Qmake 165 4)) in H
    by (vm_compute; reflexivity).
  exact H.
Defined.

(** A [READY] frame with an interval beyond the range of a float. *)
Example ready_frame_overflow :
  received_message silent_user_code ready_parser ready_parse
    (ready_frame (10 ^ 400)) (start (__init__ None))
  = (Raise (OverflowError "int too large to convert to float"),
     mkWorld (__init__ None) []
       [Log DEBUG "WebSocket Event: {}" (ready_frame (10 ^ 400));
        Log DEBUG "Dispatching event {}" (JStr "socket_response")]).
Proof. vm_compute. reflexivity. Qed.

(** ** The keep-alive task *)

Section KeepAliveFacts.

Variable user_code : nat -> args -> Res unit.

Lemma resume_task_self tid now w :
  self (resume_task user_code tid now w) = self w.
Proof.
  unfold resume_task.
  destruct (tasks w !! tid) as [[c st]|]; [|done]. simpl.
  destruct c as [method a|interval].
  - destruct st; try done.
    pose proof (run_event_frame user_code method a w) as [Hs _].
    by destruct (_run_event user_code method a w).
  - unfold keep_alive_handler, keep_alive_head. run_coro.
    destruct st; try done; destruct (_closed (self w)); try done;
      destruct (ws (self w)); done.
Qed.

(** On an open session the driver, resumed at the head of its loop,
    logs, sends one frame and is suspended in the send. *)
Lemma resume_head_open interval tid now st sock w :
  _closed (self w) = false ->
  ws (self w) = Some sock ->
  tasks w !! tid = Some (mkTask (KeepAlive interval) st) ->
  st = Pending \/ st = InSleep ->
  resume_task user_code tid now w
  = mkWorld (self w) (<[tid := mkTask (KeepAlive interval) InSend]> (tasks w))
      (trace w ++ [Log DEBUG "Keeping websocket alive with timestamp {}" (JInt now);
                   WsSend (to_json (JDict [("op", JInt 1); ("d", JInt now)]))]).
Proof.
  intros Hopen Hws Htask Hst.
  unfold resume_task. rewrite Htask. simpl.
  unfold keep_alive_handler, keep_alive_head. run_coro.
  rewrite Hopen, Hws. simpl.
  destruct Hst as [-> | ->]; simpl; by rewrite <- app_assoc.
Qed.

(** [close] on an open session with a socket and a keep-alive task. *)
Lemma close_open k sock w :
  _closed (self w) = false ->
  ws (self w) = Some sock ->
  keep_alive (self w) = Some k ->
  close w = (Return tt,
             mkWorld (set_closed true (self w)) (alter cancel_state k (tasks w))
               (trace w ++ [WsClose; CancelTask k])).
Proof.
  intros Hopen Hws Hk. unfold close. run_coro.
  rewrite Hopen, Hws. simpl. rewrite Hk. simpl. by rewrite <- app_assoc.
Qed.

(** On an open session a turn of the loop sends one frame and sleeps. *)
Lemma beat_open interval tid now st sock w :
  _closed (self w) = false ->
  ws (self w) = Some sock ->
  tasks w !! tid = Some (mkTask (KeepAlive interval) st) ->
  st = Pending \/ st = InSleep ->
  beat user_code tid now w
  = mkWorld (self w) (<[tid := mkTask (KeepAlive interval) InSleep]> (tasks w))
      (trace w ++ beat_actions interval now).
Proof.
  intros Hopen Hws Htask Hst.
  assert (Hlt : (tid < length (tasks w))%nat) by (by eapply lookup_lt_Some).
  unfold beat.
  rewrite (resume_head_open interval tid now st sock w) by done.
  unfold resume_task. simpl.
  rewrite list_lookup_insert_eq by done. simpl.
  rewrite list_insert_insert_eq, <- app_assoc. done.
Qed.

(** Once [_closed] is set, resuming a task sends nothing. *)
Lemma resume_task_closed tid now w :
  _closed (self w) = true ->
  exists out, trace (resume_task user_code tid now w) = trace w ++ out
              /\ Forall (fun a => is_ws_send a = false) out.
Proof.
  intros Hclosed. unfold resume_task.
  destruct (tasks w !! tid) as [[c st]|]; simpl;
    [|exists []; by rewrite app_nil_r].
  destruct c as [method a|interval].
  - destruct st; try (exists []; by rewrite app_nil_r).
    destruct (only_run_event user_code method a w) as (_ & _ & (out & Ho & Hout)).
    destruct (_run_event user_code method a w) as [r w1]. simpl in *.
    exists out. split; [done|].
    eapply Forall_impl; [exact Hout|]. by intros [].
  - unfold keep_alive_handler, keep_alive_head. run_coro. rewrite Hclosed.
    destruct st; simpl; try (exists []; by rewrite app_nil_r).
    exists [Sleep interval]. split; [done|]. by constructor.
Qed.

Lemma resume_all_closed schedule w :
  _closed (self w) = true ->
  self (resume_all user_code schedule w) = self w
  /\ exists out, trace (resume_all user_code schedule w) = trace w ++ out
                 /\ Forall (fun a => is_ws_send a = false) out.
Proof.
  revert w. induction schedule as [|[tid now] rest IH]; intros w Hclosed; simpl.
  - split; [done|]. exists []. by rewrite app_nil_r.
  - destruct (resume_task_closed tid now w Hclosed) as (out & Ho & Hout).
    destruct (IH (resume_task user_code tid now w)) as (Hs & out' & Ho' & Hout').
    { by rewrite resume_task_self. }
    split; [by rewrite Hs, resume_task_self|].
    exists (out ++ out'). rewrite Ho', Ho, app_assoc. split; [done|].
    by apply Forall_app.
Qed.

(** The turns of the loop on an open session, one per clock reading. *)
Lemma beats_open interval tid nows st sock w :
  _closed (self w) = false ->
  ws (self w) = Some sock ->
  tasks w !! tid = Some (mkTask (KeepAlive interval) st) ->
  st = Pending \/ st = InSleep ->
  self (beats user_code tid nows w) = self w
  /\ trace (beats user_code tid nows w)
     = trace w ++ concat (map (beat_actions interval) nows)
  /\ length (tasks (beats user_code tid nows w)) = length (tasks w)
  /\ (forall other, other <> tid ->
        tasks (beats user_code tid nows w) !! other = tasks w !! other)
  /\ tasks (beats user_code tid nows w) !! tid
     = Some (mkTask (KeepAlive interval)
               (match nows with [] => st | _ => InSleep end)).
Proof.
  revert w st. induction nows as [|now rest IH]; intros w st Hopen Hws Htask Hst.
  - simpl. rewrite app_nil_r. done.
  - assert (Hlt : (tid < length (tasks w))%nat) by (by eapply lookup_lt_Some).
    simpl. rewrite (beat_open interval tid now st sock w) by done.
    set (w1 := mkWorld _ _ _).
    destruct (IH w1 InSleep) as (Hs & Ht & Hl & Ho & Hk); try done.
    { subst w1. simpl. by rewrite list_lookup_insert_eq. }
    { by right. }
    rewrite Hs, Ht, Hl. subst w1. simpl.
    split; [done|]. split; [by rewrite <- app_assoc|].
    split; [by rewrite length_insert|]. split.
    + intros other Hne. rewrite Ho by done. simpl.
      by rewrite list_lookup_insert_ne.
    + rewrite Hk. by destruct rest.
Qed.

End KeepAliveFacts.

(** C6: started with interval [interval] on an open session, the driver
    at each turn of its loop sends exactly one frame with operation 1 and
    the clock reading as payload, then sleeps for [interval].  Once
    [close] has returned, whichever tasks are resumed, no frame is sent. *)
Theorem C6_heartbeat_until_close user_code (interval : Q) (tid : nat)
    (sock : WebSocket) (nows : list Z) (later : list (nat * Z)) (w : World) :
  _closed (self w) = false ->
  ws (self w) = Some sock ->
  keep_alive (self w) = Some tid ->
  tasks w !! tid = Some (mkTask (KeepAlive interval) Pending) ->
  let running := beats user_code tid nows w in
  let closed := snd (close running) in
  new_actions w running
    = concat (map (fun now =>
                     [Log DEBUG "Keeping websocket alive with timestamp {}" (JInt now);
                      WsSend (to_json (JDict [("op", JInt 1); ("d", JInt now)]));
                      Sleep interval]) nows)
  /\ fst (close running) = Return tt
  /\ _closed (self closed) = true
  /\ tasks closed !! tid = Some (mkTask (KeepAlive interval) Cancelled)
  /\ Forall (fun a => is_ws_send a = false)
       (new_actions closed (resume_all user_code later closed)).
Proof.
  intros Hopen Hws Hk Htask running closed.
  destruct (beats_open user_code interval tid nows Pending sock w)
    as (Hs & Ht & _ & _ & Hst); try done; [by left|].
  fold running in Hs, Ht, Hst.
  assert (Hclose : close running
    = (Return tt,
       mkWorld (set_closed true (self running))
         (alter cancel_state tid (tasks running))
         (trace running ++ [WsClose; CancelTask tid]))).
  { apply (close_open tid sock); by rewrite Hs. }
  split; [by apply new_actions_app|].
  subst closed. rewrite Hclose. simpl.
  split; [done|]. split; [done|]. split.
  - rewrite list_lookup_alter_eq, Hst. by destruct nows.
  - match goal with |- context [resume_all _ _ ?c] => set (closed := c) end.
    destruct (resume_all_closed user_code later closed) as (_ & out & Ho & Hout);
      [done|].
    by rewrite (new_actions_app closed _ out).
Qed.

Lemma C6_heartbeat_until_close_witness :
  new_actions streaming
    (beats silent_user_code 0 [1700000000; 1700000041] streaming)
  = [Log DEBUG "Keeping websocket alive with timestamp {}" (JInt 1700000000);
     WsSend (to_json (JDict [("op", JInt 1); ("d", JInt 1700000000)]));
     Sleep (Qmake 41250 1000);
     Log DEBUG "Keeping websocket alive with timestamp {}" (JInt 1700000041);
     WsSend (to_json (JDict [("op", JInt 1); ("d", JInt 1700000041)]));
     Sleep (Qmake 41250 1000)]
  /\ Forall (fun a => is_ws_send a = false)
       (new_actions
          (snd (close (beats silent_user_code 0 [1700000000; 1700000041] streaming)))
          (resume_all silent_user_code [(0%nat, 1700000082)]
             (snd (close (beats silent_user_code 0 [1700000000; 1700000041] streaming))))).
Proof.
  pose proof (C6_heartbeat_until_close silent_user_code (Qmake 41250 1000) 0
                (mkWebSocket (JStr "wss://gateway") None)
                [1700000000; 1700000041] [(0%nat, 1700000082)] streaming
                eq_refl eq_refl eq_refl eq_refl) as H.
  cbv zeta in H. destruct H as (H1 & _ & _ & _ & H2).
  split; [exact H1 | exact H2].
Defined.

(** ** A second READY frame *)



Example two_heartbeats :
  let w' := snd (received_message silent_user_code ready_parser ready_parse
                   (ready_frame 30000) streaming) in
  tasks w' = [mkTask (KeepAlive (Qmake 41250 1000)) Pending;
              mkTask (KeepAlive (Qmake 30 1)) Pending]
  /\ keep_alive (self w') = Some 1%nat.
Proof. vm_compute. split; reflexivity. Qed.

(** * Further properties of the lifecycle *)

(** ** Login and handshake *)

(** The handshake of a logged-in client whose gateway request is answered
    with status 200 and a dict. *)
Lemma make_websocket_ok platform gwkv (resp : Response) (w : World) :
  _is_logged_in (self w) = Some true ->
  status resp = 200 ->
  body resp = Some (JDict gwkv) ->
  _make_websocket platform resp w
  = (Return tt,
     mkWorld
       (set_ws (Some (mkWebSocket (dict_get gwkv "url") None))
          (set_gateway (dict_get gwkv "url") (self w)))
       (tasks w)
       (trace w ++
          [HttpGet GATEWAY (headers (self w));
           WsConnect (dict_get gwkv "url");
           Log INFO "Created websocket connected to {0.gateway}" (dict_get gwkv "url");
           WsSend (to_json (handshake_payload platform (token (self w))));
           Log INFO "sent the initial payload to create the websocket" JNull])).
Proof.
  intros Hlog Hst Hbody.
  unfold _make_websocket, is_logged_in, _get_gateway, resp_json, py_get.
  run_coro. rewrite Hlog. simpl. rewrite Hst, Hbody. simpl.
  by rewrite <- !app_assoc.
Qed.

(** What a login answered with 200 and a token leaves. *)
Lemma login_ok email password kv tok (resp : Response) (w : World) :
  status resp = 200 ->
  body resp = Some (JDict kv) ->
  dict_item kv "token" = Some tok ->
  login email password resp w
  = (Return tt,
     mkWorld
       (set_is_logged_in true
          (set_headers (<["authorization" := tok]> (headers (self w)))
             (set_token tok (set_email (JStr email) (self w)))))
       (tasks w)
       (trace w ++
          [HttpPost LOGIN
             (Some (to_json (JDict [("email", JStr email); ("password", JStr password)])))
             (headers (self w));
           Log DEBUG request_logging_format (JInt 200);
           Log INFO "logging in returned status code {}" (JInt 200)])).
Proof.
  intros Hst Hbody Htok. unfold login, resp_json, py_item. run_coro.
  rewrite Hst, Hbody. simpl. rewrite Htok. simpl. by rewrite <- !app_assoc.
Qed.

(** X1: after a login answered with 200 and a token, the handshake goes
    through: the gateway request carries the token as [authorization]
    header, the socket is opened on the url the gateway gave, and the one
    frame sent is the identify payload with that token. *)
Theorem X1_login_then_handshake platform (email password : string)
    (kv gwkv : list (string * json)) (tok : json) (w : World) :
  dict_item kv "token" = Some tok ->
  let url := dict_get gwkv "url" in
  let w1 := snd (login email password (mkResponse 200 (Some (JDict kv))) w) in
  let w2 := snd (_make_websocket platform (mkResponse 200 (Some (JDict gwkv))) w1) in
  fst (login email password (mkResponse 200 (Some (JDict kv))) w) = Return tt
  /\ fst (_make_websocket platform (mkResponse 200 (Some (JDict gwkv))) w1) = Return tt
  /\ new_actions w1 w2
     = [HttpGet GATEWAY (<["authorization" := tok]> (headers (self w)));
        WsConnect url;
        Log INFO "Created websocket connected to {0.gateway}" url;
        WsSend (to_json
                  (JDict [("op", JInt 2);
                          ("d", JDict [("token", tok);
                                       ("properties",
                                        JDict [("$os", JStr platform);
                                               ("$browser", JStr "discord.py");
                                               ("$device", JStr "discord.py");
                                               ("$referrer", JStr "");
                                               ("$referring_domain", JStr "")]);
                                       ("v", JInt 3)])]));
        Log INFO "sent the initial payload to create the websocket" JNull]
  /\ ws (self w2) = Some (mkWebSocket url None)
  /\ gateway (self w2) = url
  /\ token (self w2) = tok
  /\ cs_email (connection (self w2)) = JStr email.
Proof.
  intros Htok url w1 w2.
  assert (E1 := login_ok email password kv tok (mkResponse 200 (Some (JDict kv))) w
                  eq_refl eq_refl Htok).
  subst w2 w1. rewrite E1.
  match type of E1 with _ = (_, ?x) => set (w1 := x) end.
  change (snd (Return tt, w1)) with w1. change (fst (Return tt, w1)) with (Return tt).
  assert (E2 := make_websocket_ok platform gwkv (mkResponse 200 (Some (JDict gwkv)))
                  w1 eq_refl eq_refl eq_refl).
  rewrite E2. split; [done|]. split; [done|]. split; [|done].
  by apply new_actions_app.
Qed.

Lemma X1_login_then_handshake_witness :
  ws (self (snd (_make_websocket "linux" (gateway_ok "wss://gateway")
                   (snd (login "a@b.c" "pw"
                           (mkResponse 200 (Some (JDict [("token", JStr "T")])))
                           (start (__init__ None)))))))
  = Some (mkWebSocket (JStr "wss://gateway") None).
Proof.
  pose proof (X1_login_then_handshake "linux" "a@b.c" "pw" [("token", JStr "T")]
                [("url", JStr "wss://gateway")] (JStr "T")
                (start (__init__ None)) eq_refl) as H.
  cbv zeta in H. destruct H as (_ & _ & _ & H & _). exact H.
Defined.

(** X2: a login answered with 200 whose body has no [token] raises
    [KeyError] after the email was stored: the email is set while the
    token, the headers and the logged-in flag are as before. *)
Theorem X2_login_without_token (email password : string)
    (kv : list (string * json)) (resp : Response) (w : World) :
  status resp = 200 ->
  body resp = Some (JDict kv) ->
  dict_item kv "token" = None ->
  let w' := snd (login email password resp w) in
  fst (login email password resp w) = Raise (KeyError "token")
  /\ cs_email (connection (self w')) = JStr email
  /\ token (self w') = token (self w)
  /\ headers (self w') = headers (self w)
  /\ _is_logged_in (self w') = _is_logged_in (self w).
Proof.
  intros Hst Hbody Htok w'. subst w'.
  unfold login, resp_json, py_item. run_coro.
  rewrite Hst, Hbody. simpl. rewrite Htok. simpl. done.
Qed.

Lemma X2_login_without_token_witness :
  fst (login "a@b.c" "pw" (mkResponse 200 (Some (JDict []))) (start (__init__ None)))
    = Raise (KeyError "token")
  /\ cs_email (connection (self (snd (login "a@b.c" "pw"
                                        (mkResponse 200 (Some (JDict [])))
                                        (start (__init__ None))))))
     = JStr "a@b.c"
  /\ _is_logged_in (self (snd (login "a@b.c" "pw"
                                 (mkResponse 200 (Some (JDict [])))
                                 (start (__init__ None)))))
     = None.
Proof.
  pose proof (X2_login_without_token "a@b.c" "pw" [] (mkResponse 200 (Some (JDict [])))
                (start (__init__ None)) eq_refl eq_refl eq_refl) as H.
  cbv zeta in H. destruct H as (H1 & H2 & _ & _ & H5).
  split; [exact H1 | split; [exact H2 | exact H5]].
Defined.

(** X3: when the gateway request of a logged-in client is not answered
    with 200, [connect] raises [GatewayNotFound] after that one request:
    no socket is opened, nothing is sent or read, the client is
    unchanged. *)
Theorem X3_gateway_unavailable platform user_code has_parser parse
    (resp : Response) (inbox : list received) (w : World) :
  _is_logged_in (self w) = Some true ->
  status resp <> 200 ->
  connect platform user_code has_parser parse resp inbox w
  = (Raise GatewayNotFound,
     mkWorld (self w) (tasks w) (trace w ++ [HttpGet GATEWAY (headers (self w))])).
Proof.
  intros Hlog Hst.
  unfold connect, _make_websocket, is_logged_in, _get_gateway. run_coro.
  rewrite Hlog. simpl.
  destruct (Z.eqb_spec (status resp) 200) as [E|_]; [done|]. reflexivity.
Qed.

Lemma X3_gateway_unavailable_witness :
  connect "linux" silent_user_code no_parser no_parse (mkResponse 503 None) []
    (start (logged_in_client (JStr "T")))
  = (Raise GatewayNotFound,
     mkWorld (logged_in_client (JStr "T")) []
       [HttpGet GATEWAY (headers (logged_in_client (JStr "T")))]).
Proof.
  apply (X3_gateway_unavailable "linux" silent_user_code no_parser no_parse
           (mkResponse 503 None) [] (start (logged_in_client (JStr "T"))));
    [reflexivity | discriminate].
Defined.

(** ** Closing *)

(** X4: [close] is idempotent: whenever a call of [close] returns, a
    second call returns too and does nothing, neither an action nor a
    change. *)
Theorem X4_close_idempotent (w : World) :
  fst (close w) = Return tt ->
  close (snd (close w)) = (Return tt, snd (close w))
  /\ _closed (self (snd (close w))) = true.
Proof.
  unfold close. run_coro.
  destruct (_closed (self w)) eqn:Hc; simpl.
  - intros _. rewrite Hc. done.
  - destruct (ws (self w)) as [sock|]; simpl; [|done].
    destruct (keep_alive (self w)) as [k|]; simpl; done.
Qed.

Lemma X4_close_idempotent_witness :
  close (snd (close streaming)) = (Return tt, snd (close streaming))
  /\ _closed (self (snd (close streaming))) = true.
Proof.
  apply (X4_close_idempotent streaming). reflexivity.
Defined.

(** X5: [logout] on an open session posts the logout, closes the socket,
    cancels the keep-alive task and clears the logged-in flag; a [connect]
    after it raises [ClientException] without any action. *)
Theorem X5_logout_then_connect platform user_code has_parser parse
    (k : nat) (sock : WebSocket) (resp : Response) (inbox : list received)
    (w : World) :
  _closed (self w) = false ->
  ws (self w) = Some sock ->
  keep_alive (self w) = Some k ->
  let w' := snd (logout w) in
  fst (logout w) = Return tt
  /\ new_actions w w'
     = [HttpPost LOGOUT None (headers (self w)); WsClose; CancelTask k;
        Log DEBUG request_logging_format JNull]
  /\ _is_logged_in (self w') = Some false
  /\ _closed (self w') = true
  /\ connect platform user_code has_parser parse resp inbox w'
     = (Raise (ClientException "You must be logged in to connect"), w').
Proof.
  intros Hopen Hws Hk w'.
  assert (E : logout w
    = (Return tt,
       mkWorld (set_is_logged_in false (set_closed true (self w)))
         (alter cancel_state k (tasks w))
         (trace w ++ [HttpPost LOGOUT None (headers (self w)); WsClose; CancelTask k;
                      Log DEBUG request_logging_format JNull]))).
  { unfold logout, close. run_coro. rewrite Hopen, Hws. simpl. rewrite Hk. simpl.
    by rewrite <- !app_assoc. }
  subst w'. rewrite E. simpl.
  split; [done|]. split; [by apply new_actions_app|]. done.
Qed.

Lemma X5_logout_then_connect_witness :
  _is_logged_in (self (snd (logout streaming))) = Some false
  /\ connect "linux" silent_user_code no_parser no_parse (gateway_ok "wss://gateway") []
       (snd (logout streaming))
     = (Raise (ClientException "You must be logged in to connect"),
        snd (logout streaming)).
Proof.
  pose proof (X5_logout_then_connect "linux" silent_user_code no_parser no_parse
                0 (mkWebSocket (JStr "wss://gateway") None)
                (gateway_ok "wss://gateway") [] streaming
                eq_refl eq_refl eq_refl) as H.
  cbv zeta in H. destruct H as (_ & _ & H3 & _ & H5).
  split; [exact H3 | exact H5].
Defined.

(** X6: [logout] on a client that never opened a socket posts the logout
    and then fails in [close] with [AttributeError]; the logged-in flag is
    not cleared. *)
Theorem X6_logout_before_connect (flag : bool) (w : World) :
  _closed (self w) = false ->
  ws (self w) = None ->
  _is_logged_in (self w) = Some flag ->
  logout w
  = (Raise (AttributeError "NoneType" "close"),
     mkWorld (self w) (tasks w) (trace w ++ [HttpPost LOGOUT None (headers (self w))]))
  /\ _is_logged_in (self (snd (logout w))) = Some flag.
Proof.
  intros Hopen Hws Hlog.
  assert (E : logout w
    = (Raise (AttributeError "NoneType" "close"),
       mkWorld (self w) (tasks w)
         (trace w ++ [HttpPost LOGOUT None (headers (self w))]))).
  { unfold logout, close. run_coro. by rewrite Hopen, Hws. }
  rewrite E. by split.
Qed.

Lemma X6_logout_before_connect_witness :
  logout (start (logged_in_client (JStr "T")))
  = (Raise (AttributeError "NoneType" "close"),
     mkWorld (logged_in_client (JStr "T")) []
       [HttpPost LOGOUT None (headers (logged_in_client (JStr "T")))])
  /\ _is_logged_in (self (snd (logout (start (logged_in_client (JStr "T"))))))
     = Some true.
Proof.
  apply (X6_logout_before_connect true (start (logged_in_client (JStr "T"))));
    reflexivity.
Defined.

(** ** The receive loop *)

Lemma filter_none (P Q : action -> bool) (l : list action) :
  Forall (fun a => P a = true) l ->
  (forall a, P a = true -> Q a = false) ->
  List.filter Q l = [].
Proof.
  intros Hl HPQ. induction Hl as [|a l Ha _ IH]; simpl; [done|].
  by rewrite (HPQ a Ha).
Qed.

Lemma handle_not_on_error (e : string) :
  String.eqb ("handle_" +:+ e) "on_error" = false.
Proof. reflexivity. Qed.

Section ReceiveLoop.

Variable user_code : nat -> args -> Res unit.
Variable has_parser : string -> bool.
Variable parse : string -> json -> ConnectionState -> list parser_step * Res unit.

(** One turn of the loop of [connect]. *)
Lemma receive_loop_cons r inbox w :
  receive_loop user_code has_parser parse (r :: inbox) w =
    if _closed (self w) then (Return Returned, w)
    else
      let w0 := mkWorld (self w) (tasks w) (trace w ++ [WsRecv]) in
      match r with
      | RecvNone =>
          match close w0 with
          | (Return _, w1) => (Return Returned, w1)
          | (Raise e, w1) => (Raise e, w1)
          end
      | RecvText None => (Raise (ValueError "No JSON object could be decoded"), w0)
      | RecvText (Some msg) =>
          match received_message user_code has_parser parse msg w0 with
          | (Return _, w1) => receive_loop user_code has_parser parse inbox w1
          | (Raise e, w1) => (Raise e, w1)
          end
      end.
Proof.
  simpl. unfold bind at 1, get_self.
  destruct (_closed (self w)); [done|].
  rewrite bind_run. simpl. by destruct r as [|[msg|]].
Qed.

(** The announcement of a frame returns when the client has no
    [handle_socket_response] hook. *)
Lemma announce_without_hook msg w :
  attrs (self w) !! "handle_socket_response" = None ->
  fst (announce user_code msg w) = Return tt.
Proof.
  intros Hno. unfold announce, dispatch, hasattr, lookup_attr, create_task.
  run_coro.
  change ("handle_" +:+ "socket_response") with "handle_socket_response".
  change ("on_" +:+ "socket_response") with "on_socket_response".
  rewrite Hno. simpl.
  by destruct (attrs (self w) !! "on_socket_response").
Qed.

End ReceiveLoop.

(** X7: a [None] read ends the loop of [connect]: the frames that would
    follow it are never read or processed. *)
Theorem X7_none_read_ends_loop user_code has_parser parse
    (before after : list received) (w : World) :
  receive_loop user_code has_parser parse (before ++ RecvNone :: after) w
  = receive_loop user_code has_parser parse (before ++ [RecvNone]) w.
Proof.
  revert w. induction before as [|r before IH]; intros w.
  - simpl app. by rewrite !receive_loop_cons.
  - simpl app. rewrite !receive_loop_cons.
    destruct (_closed (self w)); [done|]. simpl.
    destruct r as [|[msg|]]; try done.
    destruct (received_message _ _ _ _ _) as [[[]|e] w1]; [apply IH | done].
Qed.

(** X8: [close] never resets [_closed], so a [connect] on a client that
    was closed performs the handshake and returns at once: no frame is
    read, whatever the socket would deliver. *)
Theorem X8_connect_after_close platform user_code has_parser parse
    (gwkv : list (string * json)) (resp : Response) (inbox : list received)
    (w : World) :
  _closed (self w) = true ->
  _is_logged_in (self w) = Some true ->
  status resp = 200 ->
  body resp = Some (JDict gwkv) ->
  connect platform user_code has_parser parse resp inbox w
  = (Return Returned,
     mkWorld
       (set_ws (Some (mkWebSocket (dict_get gwkv "url") None))
          (set_gateway (dict_get gwkv "url") (self w)))
       (tasks w)
       (trace w ++
          [HttpGet GATEWAY (headers (self w));
           WsConnect (dict_get gwkv "url");
           Log INFO "Created websocket connected to {0.gateway}" (dict_get gwkv "url");
           WsSend (to_json (handshake_payload platform (token (self w))));
           Log INFO "sent the initial payload to create the websocket" JNull])).
Proof.
  intros Hclosed Hlog Hst Hbody. unfold connect. rewrite bind_run.
  rewrite (make_websocket_ok platform gwkv resp w Hlog Hst Hbody).
  destruct inbox as [|r inbox].
  - simpl. unfold bind, get_self. simpl. by rewrite Hclosed.
  - rewrite receive_loop_cons. simpl. by rewrite Hclosed.
Qed.

Lemma X8_connect_after_close_witness :
  fst (connect "linux" silent_user_code no_parser no_parse
         (gateway_ok "wss://gateway") [RecvText (Some (ready_frame 41250))]
         (start (set_closed true (logged_in_client (JStr "T")))))
  = Return Returned.
Proof.
  rewrite (X8_connect_after_close "linux" silent_user_code no_parser no_parse
             [("url", JStr "wss://gateway")] (gateway_ok "wss://gateway")
             [RecvText (Some (ready_frame 41250))]
             (start (set_closed true (logged_in_client (JStr "T"))))
             eq_refl eq_refl eq_refl eq_refl).
  reflexivity.
Defined.

(** ** Dispatch frames *)

#[local] Arguments known_event : simpl never.
#[local] Arguments py_eq_str : simpl never.



(** A parser that records the message: the frame changes the state store
    and nothing else of the client. *)
Example message_create_updates_store :
  let frame := JDict [("op", JInt 0); ("t", JStr "MESSAGE_CREATE");
                      ("d", JDict [("content", JStr "hi")])] in
  let w' := snd (received_message silent_user_code (fun _ => true) history_parse
                   frame (start (__init__ None))) in
  cs_messages (connection (self w')) = [JDict [("content", JStr "hi")]]
  /\ self w' <> __init__ None
  /\ forget_store (self w') = forget_store (__init__ None).
Proof. vm_compute. repeat split. discriminate. Qed.



(** X11: a frame that decodes to something else than a dict (a list, a
    number, a string) is announced and then raises [AttributeError] at
    [msg.get]: the loop of [connect] ends with that exception, the frames
    after it are not read, and the client is unchanged. *)
Theorem X11_non_dict_frame_ends_loop user_code has_parser parse
    (msg : json) (rest : list received) (w : World) :
  _closed (self w) = false ->
  is_dict msg = false ->
  attrs (self w) !! "handle_socket_response" = None ->
  let r := receive_loop user_code has_parser parse (RecvText (Some msg) :: rest) w in
  fst r = Raise (AttributeError (type_name msg) "get")
  /\ self (snd r) = self w
  /\ List.filter on_socket (new_actions w (snd r)) = [WsRecv].
Proof.
  intros Hopen Hdict Hno r. subst r.
  rewrite receive_loop_cons, Hopen. cbv zeta.
  set (w0 := mkWorld (self w) (tasks w) (trace w ++ [WsRecv])).
  assert (Hann : fst (announce user_code msg w0) = Return tt)
    by (by apply announce_without_hook).
  destruct (announce_effect user_code msg w0) as (Hs & _ & (out & Ho & Hout)).
  assert (E : received_message user_code has_parser parse msg w0
    = (Raise (AttributeError (type_name msg) "get"), snd (announce user_code msg w0))).
  { unfold received_message, announce in *.
    rewrite bind_run. simpl in *. rewrite bind_run.
    destruct (dispatch user_code "socket_response" _ _) as [r0 w1]; simpl in *.
    subst r0. by destruct msg. }
  rewrite E. simpl. split; [done|]. split; [by rewrite Hs|].
  rewrite (new_actions_app w _ ([WsRecv] ++ out))
    by (rewrite Ho; subst w0; simpl; by rewrite <- app_assoc).
  simpl. by rewrite (filter_none quiet on_socket out Hout) by (by intros []).
Qed.

Lemma X11_non_dict_frame_ends_loop_witness :
  fst (receive_loop silent_user_code no_parser no_parse
         [RecvText (Some (JList [JInt 1])); RecvText (Some (ready_frame 41250))]
         streaming)
  = Raise (AttributeError "list" "get").
Proof.
  pose proof (X11_non_dict_frame_ends_loop silent_user_code no_parser no_parse
                (JList [JInt 1]) [RecvText (Some (ready_frame 41250))] streaming
                eq_refl eq_refl ltac:(vm_compute; reflexivity)) as H.
  cbv zeta in H. destruct H as [H _]. exact H.
Defined.

(** X12: a [READY] frame whose payload has no [heartbeat_interval] raises
    [KeyError] right after the announcement: no keep-alive task is
    created, [keep_alive] is not assigned and [parse_ready] does not
    run. *)
Theorem X12_ready_without_interval user_code has_parser parse
    (kv d : list (string * json)) (w : World) :
  py_eq_zero (dict_get kv "op") = true ->
  dict_get kv "t" = JStr "READY" ->
  dict_get kv "d" = JDict d ->
  dict_item d "heartbeat_interval" = None ->
  fst (announce user_code (JDict kv) w) = Return tt ->
  received_message user_code has_parser parse (JDict kv) w
  = (Raise (KeyError "heartbeat_interval"), snd (announce user_code (JDict kv) w))
  /\ self (snd (announce user_code (JDict kv) w)) = self w.
Proof.
  intros Hop Ht Hd Hms Hann.
  split; [|apply (announce_effect user_code (JDict kv) w)].
  unfold received_message, announce in *.
  rewrite bind_run. simpl in *. rewrite bind_run.
  destruct (dispatch user_code "socket_response" _ _) as [r w1]; simpl in *.
  subst r. run_coro. rewrite Hop, Ht, Hd. simpl.
  change (py_eq_str (JStr "READY") "READY") with true. simpl. by rewrite Hms.
Qed.

Lemma X12_ready_without_interval_witness :
  received_message silent_user_code ready_parser ready_parse
    (JDict [("op", JInt 0); ("t", JStr "READY"); ("d", JDict [])])
    (start (__init__ None))
  = (Raise (KeyError "heartbeat_interval"),
     mkWorld (__init__ None) []
       [Log DEBUG "WebSocket Event: {}"
          (JDict [("op", JInt 0); ("t", JStr "READY"); ("d", JDict [])]);
        Log DEBUG "Dispatching event {}" (JStr "socket_response")]).
Proof.
  pose proof (X12_ready_without_interval silent_user_code ready_parser ready_parse
                [("op", JInt 0); ("t", JStr "READY"); ("d", JDict [])] []
                (start (__init__ None)) eq_refl eq_refl eq_refl eq_refl
                ltac:(vm_compute; reflexivity)) as H.
  destruct H as [H _]. rewrite H. vm_compute. reflexivity.
Defined.

(** ** Registration and dispatch *)

(** X13: [dispatch] raises only what the synchronous hook
    [handle_<event>] raises: without such a hook, or when it returns,
    [dispatch] returns. *)
Theorem X13_dispatch_raises_only_from_hook user_code
    (event : string) (a : args) (x : exn) (w : World) :
  fst (dispatch user_code event a w) = Raise x ->
  exists h, attrs (self w) !! ("handle_" +:+ event) = Some h
            /\ user_code h a = Raise x.
Proof.
  unfold dispatch, call_sync, hasattr, lookup_attr, create_task. run_coro.
  rewrite ?handle_not_on_error.
  destruct (attrs (self w) !! ("handle_" +:+ event)) as [h|] eqn:Hh; simpl.
  - rewrite Hh. simpl.
    destruct (user_code h a) as [[]|e] eqn:Hu; simpl.
    + match goal with |- fst ((if ?b then _ else _) _) = _ -> _ => by destruct b end.
    + intros [= ->]. by exists h.
  - match goal with |- fst ((if ?b then _ else _) _) = _ -> _ => by destruct b end.
Qed.

Lemma X13_dispatch_raises_only_from_hook_witness :
  exists h, attrs listening_client !! "handle_message" = Some h
            /\ (if Nat.eqb h 1 then Raise (UserError "boom") else Return tt)
               = Raise (UserError "boom").
Proof.
  exact (X13_dispatch_raises_only_from_hook
           (fun f _ => if Nat.eqb f 1 then Raise (UserError "boom") else Return tt)
           "message" (positional [JStr "hi"]) (UserError "boom")
           (start listening_client) ltac:(vm_compute; reflexivity)).
Defined.

(** X14: a coroutine registered with [event] under the name [on_<event>]
    replaces whatever was bound to that name; the next [dispatch] of the
    event schedules one task, and when that task runs, the registered
    function is called once with the dispatched arguments.  If it returns,
    [on_error] is not called. *)
Theorem X14_registered_callback_runs user_code
    (event_name : string) (f : nat) (a : args) (now : Z) (w : World) :
  attrs (self w) !! ("handle_" +:+ event_name) = None ->
  user_code f a = Return tt ->
  let method := "on_" +:+ event_name in
  let w1 := snd (event method f true w) in
  let w2 := snd (dispatch user_code event_name a w1) in
  let tid := length (tasks w) in
  let w3 := resume_task user_code tid now w2 in
  fst (event method f true w) = Return tt
  /\ fst (dispatch user_code event_name a w1) = Return tt
  /\ tasks w2 = tasks w ++ [mkTask (RunEvent method a) Pending]
  /\ new_actions w2 w3 = [Call method a]
  /\ tasks w3 !! tid = Some (mkTask (RunEvent method a) (Finished (Return tt))).
Proof.
  intros Hno Hret method w1 w2 tid w3.
  assert (Hne : method <> "handle_" +:+ event_name) by (intros [=]).
  assert (E1 : event method f true w
    = (Return tt,
       mkWorld (set_attr method f (self w)) (tasks w)
         (trace w ++ [Log INFO "{0.__name__} has successfully been registered as an event"
                        (JStr method)]))).
  { reflexivity. }
  subst w3 w2 w1. rewrite E1.
  match type of E1 with _ = (_, ?x) => set (w1 := x) end.
  change (snd (Return tt, w1)) with w1. change (fst (Return tt, w1)) with (Return tt).
  assert (E2 : dispatch user_code event_name a w1
    = (Return tt,
       mkWorld (self w1) (tasks w ++ [mkTask (RunEvent method a) Pending])
         (trace w1 ++ [Log DEBUG "Dispatching event {}" (JStr event_name);
                       CreateTask tid (RunEvent method a)]))).
  { unfold dispatch, call_sync, hasattr, lookup_attr, create_task. run_coro.
    rewrite ?handle_not_on_error. fold method.
    rewrite lookup_insert_ne by done. rewrite Hno. simpl.
    rewrite lookup_insert_eq. simpl. by rewrite <- !app_assoc. }
  rewrite E2.
  match type of E2 with _ = (_, ?x) => set (w2 := x) end.
  change (snd (Return tt, w2)) with w2. change (fst (Return tt, w2)) with (Return tt).
  split; [done|]. split; [done|]. split; [done|].
  assert (E3 : resume_task user_code tid now w2
    = mkWorld (self w1)
        (<[tid := mkTask (RunEvent method a) (Finished (Return tt))]> (tasks w2))
        (trace w2 ++ [Call method a])).
  { unfold resume_task.
    assert (Hl : tasks w2 !! tid = Some (mkTask (RunEvent method a) Pending))
      by (subst w2; simpl; by apply list_lookup_middle).
    rewrite Hl. simpl.
    unfold _run_event, try_except, invoke, lookup_attr. run_coro.
    rewrite lookup_insert_eq. simpl. by rewrite Hret. }
  rewrite E3. split; [by apply new_actions_app|]. simpl.
  apply list_lookup_insert_eq. rewrite length_app. simpl. lia.
Qed.

Lemma X14_registered_callback_runs_witness :
  new_actions
    (snd (dispatch silent_user_code "ready" (positional [])
            (snd (event "on_ready" 7%nat true (start callback_client)))))
    (resume_task silent_user_code 0 1700000000
       (snd (dispatch silent_user_code "ready" (positional [])
               (snd (event "on_ready" 7%nat true (start callback_client))))))
  = [Call "on_ready" (positional [])].
Proof.
  pose proof (X14_registered_callback_runs silent_user_code "ready" 7%nat
                (positional []) 1700000000 (start callback_client)
                ltac:(vm_compute; reflexivity) eq_refl) as H.
  cbv zeta in H. destruct H as (_ & _ & _ & H & _). exact H.
Defined.

(** ** What a frame can do *)

Lemma forget_set_keep_alive t c :
  forget_keep_alive (set_keep_alive t c) = forget_keep_alive c.
Proof. reflexivity. Qed.
















(** ** From connecting to the first heartbeat *)

Lemma receive_loop_nil user_code has_parser parse w :
  snd (receive_loop user_code has_parser parse [] w) = w.
Proof. simpl. unfold bind, get_self. by destruct (_closed (self w)). Qed.

(** X16: a logged-in client connects and receives a [READY] frame: the
    identify payload is the only frame sent while connecting, the
    keep-alive task is created with the integer interval of the frame
    divided by 1000.0 as a float, provided the integer is within the range
    of a float, and stored in [keep_alive]; its first turn sends one
    heartbeat frame with the clock reading. *)
Theorem X16_connect_ready_first_heartbeat platform user_code has_parser parse
    (gwkv kv d : list (string * json)) (ms : Z) (interval : Q) (now : Z)
    (w : World) :
  _closed (self w) = false ->
  _is_logged_in (self w) = Some true ->
  attrs (self w) !! "handle_socket_response" = None ->
  py_eq_zero (dict_get kv "op") = true ->
  dict_get kv "t" = JStr "READY" ->
  dict_get kv "d" = JDict d ->
  dict_item d "heartbeat_interval" = Some (JInt ms) ->
  millis_to_seconds ms = Some interval ->
  let w' := snd (connect platform user_code has_parser parse
                   (mkResponse 200 (Some (JDict gwkv)))
                   [RecvText (Some (JDict kv))] w) in
  exists t,
    keep_alive (self w') = Some t
    /\ tasks w' !! t = Some (mkTask (KeepAlive (interval)) Pending)
    /\ List.filter is_ws_send (new_actions w w')
       = [WsSend (to_json (handshake_payload platform (token (self w))))]
    /\ List.filter is_ws_send (new_actions w' (beat user_code t now w'))
       = [WsSend (to_json (JDict [("op", JInt 1); ("d", JInt now)]))].
Proof.
  intros Hopen Hlog Hno Hop Ht Hd Hms Hsec w'.
  set (url := dict_get gwkv "url").
  set (w2 := mkWorld (set_ws (Some (mkWebSocket url None)) (set_gateway url (self w)))
               (tasks w)
               (trace w ++
                  [HttpGet GATEWAY (headers (self w)); WsConnect url;
                   Log INFO "Created websocket connected to {0.gateway}" url;
                   WsSend (to_json (handshake_payload platform (token (self w))));
                   Log INFO "sent the initial payload to create the websocket" JNull])).
  set (w0 := mkWorld (self w2) (tasks w2) (trace w2 ++ [WsRecv])).
  assert (Ew' : w' = snd (received_message user_code has_parser parse (JDict kv) w0)).
  { subst w'. unfold connect. rewrite bind_run.
    rewrite (make_websocket_ok platform gwkv (mkResponse 200 (Some (JDict gwkv)))
               w Hlog eq_refl eq_refl).
    fold url. fold w2. rewrite receive_loop_cons.
    replace (_closed (self w2)) with false by (by rewrite <- Hopen).
    cbv zeta. fold w0.
    destruct (received_message user_code has_parser parse (JDict kv) w0)
      as [[[]|e] w3]; [apply receive_loop_nil | done]. }
  assert (Hann : fst (announce user_code (JDict kv) w0) = Return tt)
    by (by apply announce_without_hook).
  pose proof (received_message_ready user_code has_parser parse kv d ms interval
                w0 Hop Ht Hd Hms Hsec Hann) as E.
  destruct (announce_effect user_code (JDict kv) w0)
    as (Hs1 & (ts1 & Ht1 & _) & (out1 & Ho1 & Hout1)).
  set (w1 := snd (announce user_code (JDict kv) w0)) in *.
  assert (Hparser : store_only quiet_or_parse
            (if has_parser "parse_ready"
             then run_parser user_code parse "parse_ready" (JDict d)
             else ret tt)).
  { destruct (has_parser "parse_ready");
      [apply store_only_run_parser | apply store_only_of_only, only_ret]. }
  destruct (Hparser (heartbeat_started (interval) w1))
    as (Hs2 & (ts2 & Ht2 & _) & (out2 & Ho2 & Hout2)).
  rewrite <- E, <- Ew' in Hs2, Ht2, Ho2. clear E Hparser.
  apply forget_store_fields in Hs2.
  destruct Hs2 as (Hws2 & _ & _ & _ & Hcl2 & _ & Hk2 & _).
  unfold heartbeat_started in Hws2, Hcl2, Hk2, Ht2, Ho2.
  simpl in Hws2, Hcl2, Hk2, Ht2, Ho2.
  rewrite Hs1 in Hws2, Hcl2. rewrite Ht1 in Hk2, Ht2, Ho2. rewrite Ho1 in Ho2.
  simpl in Hws2, Hcl2, Hk2, Ht2, Ho2.
  set (t := length (tasks w ++ ts1)) in *.
  assert (Hl : tasks w' !! t = Some (mkTask (KeepAlive (interval)) Pending)).
  { rewrite Ht2, <- app_assoc. by apply list_lookup_middle. }
  exists t. split; [exact Hk2|]. split; [exact Hl|]. split.
  - rewrite (new_actions_app w w'
      ([HttpGet GATEWAY (headers (self w)); WsConnect url;
        Log INFO "Created websocket connected to {0.gateway}" url;
        WsSend (to_json (handshake_payload platform (token (self w))));
        Log INFO "sent the initial payload to create the websocket" JNull; WsRecv]
       ++ out1 ++ [CreateTask t (KeepAlive (interval))] ++ out2))
      by (rewrite Ho2; simpl; by rewrite <- !app_assoc).
    rewrite !List.filter_app. simpl.
    rewrite (filter_none quiet is_ws_send out1 Hout1) by (by intros []).
    by rewrite (filter_none quiet_or_parse is_ws_send out2 Hout2) by (by intros []).
  - rewrite (beat_open user_code (interval) t now Pending
               (mkWebSocket url None) w');
      [| by rewrite Hcl2 | by rewrite Hws2 | exact Hl | by left].
    by rewrite (new_actions_app w' _ (beat_actions (interval) now)).
Qed.

Lemma X16_connect_ready_first_heartbeat_witness :
  let w' := snd (connect "linux" silent_user_code ready_parser ready_parse
                   (gateway_ok "wss://gateway")
                   [RecvText (Some (ready_frame 45000))]
                   (start (logged_in_client (JStr "T")))) in
  exists t,
    keep_alive (self w') = Some t
    /\ tasks w' !! t = Some (mkTask (KeepAlive (Qmake 45 1)) Pending)
    /\ List.filter is_ws_send (new_actions w' (beat silent_user_code t 1700000000 w'))
       = [WsSend (to_json (JDict [("op", JInt 1); ("d", JInt 1700000000)]))].
Proof.
  intros w'.
  destruct (X16_connect_ready_first_heartbeat "linux" silent_user_code
              ready_parser ready_parse [("url", JStr "wss://gateway")]
              [("op", JInt 0); ("t", JStr "READY");
               ("d", JDict [("heartbeat_interval", JInt 45000)])]
              [("heartbeat_interval", JInt 45000)] 45000 (Qmake 45 1)
              1700000000 (start (logged_in_client (JStr "T")))
              eq_refl eq_refl ltac:(vm_compute; reflexivity)
              eq_refl eq_refl eq_refl eq_refl ltac:(vm_compute; reflexivity))
    as (t & Hk & Hl & _ & Hb).
  exists t. split; [exact Hk | split; [exact Hl | exact Hb]].
Defined.

(** * Argument helpers *)

Lemma append_cons c (s t : string) : String c s +:+ t = String c (s +:+ t).
Proof. reflexivity. Qed.

Lemma append_empty_r (s : string) : s +:+ "" = s.
Proof. induction s as [|c s IH]; [done|]. by rewrite append_cons, IH. Qed.

Lemma append_assoc_string (s t u : string) : (s +:+ t) +:+ u = s +:+ t +:+ u.
Proof. induction s as [|c s IH]; [done|]. by rewrite !append_cons, IH. Qed.

Lemma all_digits_append (s t : string) :
  all_digits s = true -> all_digits t = true -> all_digits (s +:+ t) = true.
Proof.
  induction s as [|c s IH]; [done|]. rewrite append_cons. simpl.
  intros [Hc Hs]%andb_prop Ht. by rewrite Hc, IH.
Qed.

Lemma mention_restart_ok c : scan_ok (mention_restart c).
Proof. unfold mention_restart. by destruct (Ascii.eqb c "<"). Qed.

Lemma findall_mentions_digits (content : string) (st : mention_scan) :
  scan_ok st ->
  Forall (fun id => all_digits id = true /\ id <> "") (findall_mentions st content).
Proof.
  revert st. induction content as [|c rest IH]; intros st Hst; simpl; [done|].
  destruct st as [| | |seen].
  - apply IH, mention_restart_ok.
  - destruct (Ascii.eqb c "@"); apply IH; [done | apply mention_restart_ok].
  - destruct (is_digit c) eqn:Hc; apply IH; [|apply mention_restart_ok].
    simpl. by rewrite Hc.
  - destruct Hst as [Hd Hne]. destruct (is_digit c) eqn:Hc.
    + apply IH. simpl. split.
      * apply all_digits_append; [done|]. simpl. by rewrite Hc.
      * by destruct seen.
    + destruct (Ascii.eqb c ">").
      * constructor; [done|]. by apply IH.
      * apply IH, mention_restart_ok.
Qed.

(** X17: when [mentions] is not a list of users, every id
    [_resolve_mentions] returns is a non-empty run of the digits 0 to 9;
    there is none unless [mentions == True]. *)
Theorem X17_resolved_mentions_are_numbers (content : string) (v : json)
    (ids : list string) :
  _resolve_mentions content (MentionValue v) = Return ids ->
  Forall (fun id => all_digits id = true /\ id <> "") ids
  /\ (py_eq_true v = false -> ids = []).
Proof.
  intros H.
  assert (Hscan := findall_mentions_digits content Outside I).
  assert (Hflag : forall v',
            (if py_eq_true v' then Return (findall_mentions Outside content)
             else Return []) = Return ids ->
            Forall (fun id => all_digits id = true /\ id <> "") ids
            /\ (py_eq_true v' = false -> ids = [])).
  { intros v' Hv. destruct (py_eq_true v'); injection Hv as <-; by split. }
  destruct v as [|b|z|s|[|x l]|kv];
    [ exact (Hflag JNull H) | exact (Hflag (JBool b) H) | exact (Hflag (JInt z) H)
    | exact (Hflag (JStr s) H) | | | exact (Hflag (JDict kv) H) ].
  - injection H as <-. by split.
  - simpl in H. discriminate H.
Qed.

Lemma X17_resolved_mentions_are_numbers_witness :
  Forall (fun id => all_digits id = true /\ id <> "") ["42"; "7"].
Proof.
  exact (proj1 (X17_resolved_mentions_are_numbers "hi <@42> and <@7>, not <@x> <@>"
                  (JBool true) ["42"; "7"] eq_refl)).
Defined.

Lemma scan_text (t s : string) :
  no_lt t = true ->
  findall_mentions Outside (t +:+ s) = findall_mentions Outside s.
Proof.
  induction t as [|c t IH]; [done|]. rewrite append_cons. simpl.
  intros [Hc Ht]%andb_prop. unfold mention_restart.
  destruct (Ascii.eqb c "<"); [done|]. by apply IH.
Qed.

Lemma scan_digits (ds seen s : string) :
  all_digits ds = true ->
  findall_mentions (InDigits seen) (ds +:+ String ">" s)
  = (seen +:+ ds) :: findall_mentions Outside s.
Proof.
  revert seen. induction ds as [|c ds IH]; intros seen Hds.
  - simpl. by rewrite append_empty_r.
  - rewrite append_cons. simpl in *. apply andb_prop in Hds as [Hc Hds].
    rewrite Hc, IH by done. by rewrite append_assoc_string.
Qed.

Lemma scan_mention (id s : string) :
  all_digits id = true -> id <> "" ->
  findall_mentions Outside (mention_text id +:+ s) = id :: findall_mentions Outside s.
Proof.
  intros Hd Hne. destruct id as [|c ds]; [done|].
  unfold mention_text. rewrite !append_assoc_string, !append_cons.
  change ("" +:+ String c ds +:+ ">" +:+ s) with (String c (ds +:+ String ">" s)).
  simpl in *. apply andb_prop in Hd as [Hc Hds]. rewrite Hc.
  by rewrite scan_digits.
Qed.

(** X18: with [mentions=True], [_resolve_mentions] finds the mentions
    written as [<@id>] into a text, in their order: for ids that are
    non-empty runs of digits, separated by stretches without [<], it
    returns exactly those ids. *)
Theorem X18_mentions_round_trip (parts : list (string * string)) (tail : string) :
  Forall (fun p => no_lt (fst p) = true
                   /\ all_digits (snd p) = true /\ snd p <> "") parts ->
  no_lt tail = true ->
  _resolve_mentions (mentioning parts tail) (MentionValue (JBool true))
  = Return (map snd parts).
Proof.
  intros Hparts Htail. simpl. f_equal.
  induction Hparts as [|[before id] parts (Hb & Hd & Hne) _ IH]; simpl.
  - rewrite <- (append_empty_r tail). by rewrite scan_text.
  - simpl in *. rewrite scan_text by done. rewrite scan_mention by done.
    by rewrite IH.
Qed.

Lemma X18_mentions_round_trip_witness :
  _resolve_mentions (mentioning [("hello ", "42"); (" and ", "7")] "!")
    (MentionValue (JBool true))
  = Return ["42"; "7"].
Proof.
  apply (X18_mentions_round_trip [("hello ", "42"); (" and ", "7")] "!").
  - repeat constructor; discriminate.
  - reflexivity.
Defined.

Lemma line_of_no_newline (s : string) : no_newline s = true -> line_of s = s.
Proof.
  induction s as [|c s IH]; [done|]. simpl.
  intros [Hc Hs]%andb_prop. destruct (Ascii.eqb c (ascii_of_nat 10)); [done|].
  by rewrite IH.
Qed.

(** X19: [_resolve_invite] extracts the code from an invite url: for a
    non-empty code without a newline, the forms [https://discord.gg/code],
    [http://discord.gg/code] and [discord.gg/code] all resolve to the
    code. *)
Theorem X19_invite_url_round_trip (code : string) :
  code <> "" ->
  no_newline code = true ->
  _resolve_invite (InviteText ("https://discord.gg/" +:+ code)) = code
  /\ _resolve_invite (InviteText ("http://discord.gg/" +:+ code)) = code
  /\ _resolve_invite (InviteText ("discord.gg/" +:+ code)) = code.
Proof.
  intros Hne Hnl.
  assert (H : forall s, strip_prefix "discord.gg/" s = Some code ->
                        match strip_prefix "discord.gg/" s with
                        | Some c =>
                            match line_of c with
                            | EmptyString => None
                            | g => Some g
                            end
                        | None => None
                        end = Some code).
  { intros s ->. rewrite line_of_no_newline by done. by destruct code. }
  unfold _resolve_invite, match_invite.
  repeat split.
  - change (strip_prefix "https://" ("https://discord.gg/" +:+ code))
      with (Some ("discord.gg/" +:+ code)).
    by rewrite H.
  - change (strip_prefix "https://" ("http://discord.gg/" +:+ code))
      with (@None string).
    change (strip_prefix "http://" ("http://discord.gg/" +:+ code))
      with (Some ("discord.gg/" +:+ code)).
    by rewrite H.
  - change (strip_prefix "https://" ("discord.gg/" +:+ code)) with (@None string).
    change (strip_prefix "http://" ("discord.gg/" +:+ code)) with (@None string).
    by rewrite H.
Qed.

Lemma X19_invite_url_round_trip_witness :
  _resolve_invite (InviteText ("https://discord.gg/" +:+ "hammer")) = "hammer".
Proof.
  exact (proj1 (X19_invite_url_round_trip "hammer" ltac:(discriminate) eq_refl)).
Defined.

(** * The end of the stream *)

(** X20: on a session whose keep-alive task was started, a [None] read
    is a normal end: the socket is closed, the task cancelled, [_closed]
    set, and [connect]'s loop returns without raising, whatever would
    follow. *)
Theorem X20_none_read_closes_session user_code has_parser parse
    (k : nat) (sock : WebSocket) (rest : list received) (w : World) :
  _closed (self w) = false ->
  ws (self w) = Some sock ->
  keep_alive (self w) = Some k ->
  receive_loop user_code has_parser parse (RecvNone :: rest) w
  = (Return Returned,
     mkWorld (set_closed true (self w)) (alter cancel_state k (tasks w))
       (trace w ++ [WsRecv; WsClose; CancelTask k])).
Proof.
  intros Hopen Hws Hk. rewrite receive_loop_cons, Hopen. cbv zeta.
  rewrite (close_open k sock) by done. simpl. by rewrite <- app_assoc.
Qed.

Lemma X20_none_read_closes_session_witness :
  receive_loop silent_user_code no_parser no_parse
    [RecvNone; RecvText (Some (ready_frame 41250))] streaming
  = (Return Returned,
     mkWorld (set_closed true streaming_client)
       [mkTask (KeepAlive (Qmake 41250 1000)) Cancelled]
       [WsRecv; WsClose; CancelTask 0]).
Proof.
  rewrite (X20_none_read_closes_session silent_user_code no_parser no_parse 0
             (mkWebSocket (JStr "wss://gateway") None)
             [RecvText (Some (ready_frame 41250))] streaming
             eq_refl eq_refl eq_refl).
  reflexivity.
Defined.

(** X21: when the socket delivers [None] before any [READY] frame was
    processed, the cleanup fails: the socket is closed, then the missing
    [keep_alive] attribute makes [connect]'s loop raise [AttributeError],
    and [_closed] stays [False]. *)
Theorem X21_none_read_before_ready user_code has_parser parse
    (sock : WebSocket) (rest : list received) (w : World) :
  _closed (self w) = false ->
  ws (self w) = Some sock ->
  keep_alive (self w) = None ->
  receive_loop user_code has_parser parse (RecvNone :: rest) w
  = (Raise (AttributeError client_class "keep_alive"),
     mkWorld (self w) (tasks w) (trace w ++ [WsRecv; WsClose])).
Proof.
  intros Hopen Hws Hk. rewrite receive_loop_cons, Hopen. cbv zeta.
  rewrite (close_without_keep_alive _ sock) by done. simpl.
  by rewrite <- app_assoc.
Qed.

Lemma X21_none_read_before_ready_witness :
  fst (receive_loop silent_user_code no_parser no_parse [RecvNone]
         (start (set_ws (Some (mkWebSocket (JStr "wss://gateway") None))
                   (logged_in_client (JStr "T")))))
  = Raise (AttributeError client_class "keep_alive").
Proof.
  rewrite (X21_none_read_before_ready silent_user_code no_parser no_parse
             (mkWebSocket (JStr "wss://gateway") None) []
             (start (set_ws (Some (mkWebSocket (JStr "wss://gateway") None))
                       (logged_in_client (JStr "T"))))
             eq_refl eq_refl eq_refl).
  reflexivity.
Defined.
